(* ===== verification/_CoqProject ===== *)
-Q . S2P
Prelude.v
Host.v
Template.v
Sbctl.v
Neovim.v
Pipeline.v
SbctlPipeline.v
NeovimPipeline.v
PostBuild.v
Namespace.v
Load.v
Source.v
