(* ===== verification/Prelude.v ===== *)
(** * A verification development for the cports templates [sbctl] and [neovim]

    The repository is two package build recipes ("templates") of a
    source-based distribution: [src/contrib/sbctl/template.py] (the Secure
    Boot key manager) and [src/contrib/neovim/template.py] (the editor).
    Each template is a Python module read by the host build system
    (cbuild, not part of this repository): module-level assignments give
    the package metadata, an optional [match] on the target architecture
    extends the dependency and configure lists, and the hook functions
    [post_build] and [post_install] are called by the host with a build
    context [self] that runs commands and installs files.

    ** Files and what they model

    - [Prelude] (this file): the shared vocabulary.  String helpers the
      host uses on paths ([path_join] for pathlib's [/], [after_last],
      [basename], [suffix]), the notation scope [cports_scope], the hint
      database [cports] and the tactics of the development.
    - [Host]: the build context [self] of the hooks (modelled from the
      spec, sections 4.2 and 6, because cbuild is not in the repository).
      The context [Ctx] carries [cwd], [make_dir], [destdir], the package
      name and the command-execution capability [run], an oracle that
      gives the exit status, the standard output and the new file tree of
      an external command.  The state [BState] is the file tree (a
      [gmap] from path to contents) and the ordered trace of host events.
      Hooks are computations of a state-and-error monad [M] whose failure
      keeps the state reached so far (a failed build leaves its files on
      disk).  Operations: [do_] ([self.do], with [stdout=] redirection),
      [open_write] (Python's [open(p, "w")], which truncates),
      [install_file], [install_man], [install_completion],
      [install_license], each with its error cases.  The lemmas of
      [Host] are the interface the template proofs use: monad laws, the
      success and failure equations of each primitive, and the frame
      lemmas (what an install leaves untouched).
    - [Template]: the metadata schema shared by both recipes (the
      [Template] record with the fields the Python modules assign, the
      [build_style] enumeration, the [options] list) and the host's
      validation of it (non-empty [pkgname], [pkgver], [sha256]; a
      64-digit lowercase hexadecimal [sha256]; no duplicated dependency)
      as an executable checker [validate] with its error type, proved
      sound and complete for the propositional well-formedness [wf].
    - [Sbctl]: [src/contrib/sbctl/template.py], its metadata (with the
      f-string [source]), [post_build] (man page by [gmake man], then the
      three completion files, each opened for writing and filled by the
      [sbctl completion <shell>] command) and [post_install] (man page,
      three completions, license).
    - [Neovim]: [src/contrib/neovim/template.py], its metadata as a
      function of the target architecture (the [match] of lines 40-49,
      whose [+=] appends to the module's lists) and [post_install].
    - [PostBuild]: the three [with open(...)] blocks of [sbctl]'s
      [post_build] as one [completion_block] per shell, and
      [post_build] proved equivalent to [gmake man] followed by the loop
      [run_blocks] over the shells ([post_build_blocks]).
    - [Pipeline]: the host pipeline that calls the hooks (modelled from
      the spec, sections 2, 5 and 7): the phases validate, fetch, build,
      post_build, install, post_install and package, in order, each
      failure aborting the build.  Validation is [Template.validate], the
      fetch compares the archive's digest with [sha256], the build and
      install strategies of the build style are parameters (Section
      [Pipeline]), the hooks are the template's.  It is an executable
      [step_fn] with the fuelled driver [drive] and an inductive [step]
      relation, proved to agree ([step_fn_spec]).  The class [HookSpec]
      is the contract between the host and a template's hooks (the
      events each hook emits); the ordering theorems
      ([post_build_before_late], [hooks_in_order]) are proved against
      it, and the runs [drive_success], [drive_post_build_fails] and
      [drive_post_install_fails] for any template.
    - [SbctlPipeline], [NeovimPipeline]: the two templates in the
      pipeline, each an instance of [HookSpec], with a demo host for
      the witnesses.
    - [Namespace]: a template module as Python executes it: the
      module's global namespace ([gmap] from names to [PyVal]), the
      statements the modules use ([assign], [iadd] for [+=] on a list,
      [fstring]), the Python errors they raise ([PyError], in the error
      monad [Py]), and the host's reading of a [Template] from the
      namespace ([read_template], modelled from the spec).
    - [Load]: the two module bodies, statement by statement:
      [sbctl_exec] (lines 1-16 and the two [def]s) and [neovim_exec arch]
      (lines 2-37, the [match] of lines 40-49 as [neovim_match], and the
      [def] of line 52).
    - [Source]: parsers that read [pkgver] back from the two source
      URLs.

    The definitions of [Sbctl] and [Neovim] sit in the modules [Sbctl]
    and [Neovim] of those files (exported), so that the two [Meta]
    modules, the two [post_install] hooks and the two [template]s have
    distinct names; the manifest names a definition by its module path.

    ** What the theorems show (claim ids of the manifest)

    - [sbctl]'s [post_build] ([Sbctl], [PostBuild]): with commands that
      succeed it writes each completion file with the output of its
      command (C1).  When a completion command is the first to fail, it
      fails with that command, the files before it written, its own
      truncated to the command's partial output, the ones after it
      untouched and the trace cut after the command (C5).  When
      [gmake man] fails, no completion file is opened (C17).  It emits
      its events in source order and stops after a prefix of them
      ([Sbctl.post_build_emits]).
    - [sbctl]'s [post_install] refines the abstract install plan
      [Sbctl.install_plan], five copies source -> destination: it
      succeeds exactly when the plan finds every source, with the tree
      the plan yields (C2); it is idempotent when the source and package
      trees are disjoint (C7); it stops at the first copy whose source
      is missing, reporting that path, with the copies before it made
      and no later one (C10).
    - The two hooks together (C3): [post_build] then [post_install]
      installs, as the bash, zsh and fish completions of the package,
      the outputs of the three completion commands, and the man page
      [gmake man] generated (the paths the two hooks use agree).
    - [neovim] ([Neovim]): every architecture string selects exactly one
      Lua implementation, consistently in the three lists (C4); the [+=]
      statements keep the module's lists and append one entry to each
      (C12); [post_install] copies [LICENSE.txt] or reports it missing
      (C11).
    - Metadata: both templates are well formed ([Template.wf]), [neovim]
      for every architecture (C8, C9), through the host's checker
      [Template.validate], which is proved sound and complete for [wf]
      ([Template.validate_correct]); [sbctl]'s [source] f-string names
      the archive [<pkgname>-<pkgver>.tar.gz] (C13).
    - The host pipeline on [sbctl] ([SbctlPipeline]): a state in the install
      phase or later holds the whole event sequence of [post_build] in its
      trace, so [post_install] runs after every completion file is
      written (C6); a checksum mismatch aborts before any command runs
      (C14); a failing [post_build] aborts the build, and no install
      phase is reached (C18); the pipeline terminates in at most seven
      steps, in the only final state the step relation reaches (C15); a build whose
      commands succeed finishes with each shell's completion output at
      its completion path in the package tree (C16); a build past
      [post_install] has the events of [post_build] and, after them,
      the five install events (C24).
    - The host pipeline on [neovim] ([NeovimPipeline]), for every
      architecture: a successful build installs [LICENSE.txt] under
      [usr/share/licenses/<pkgname>] (C25); a missing license aborts the
      build in [post_install] with its path (C26).
    - Loading the modules ([Load]): the host reads from the executed
      [sbctl] module exactly [Sbctl.template] (C19) and from the
      [neovim] module exactly [Neovim.template arch] (C20), so the
      records the other theorems are about are the modules' own.  A
      second load over the namespace a load produced changes nothing
      (C21, C22), because the modules read only names they bound
      themselves ([Namespace.local]); the [match] alone, run twice,
      appends the Lua entries again and the template is rejected (C23).
    - The source URLs ([Source]): the version is read back from the
      URL each f-string builds, so both are injective in [pkgver] (C27,
      C28).
    - Shape and size of [sbctl]'s hooks: [post_build] is equivalent to
      [gmake man] followed by the loop over the shells (C30), and the
      hooks add at most seven and five events, [post_install] at most
      five files (C29).
    - Progress: every state a run of the [sbctl] pipeline reaches is
      final or can step, and leads to a final state (C31, liveness);
      every finished [neovim] build ends its trace with the license
      copy (C32).
    - The library lemmas of [Host] carry these proofs: the plan
      executor [install_seq] implements [apply_plan]
      ([install_seq_Done]); a disjoint plan is one union over the tree
      ([apply_plan_union]), hence idempotent ([apply_plan_idem]) and
      puts each source at its destination ([apply_plan_lookup]); event
      emission composes through binds ([emits_bind]).

    ** Plan for the next sittings

    1. Nothing of the two templates is left unmodelled; what remains is
       the host (cbuild), outside the repository (see below).
    2. Interfaces stay records and classes of laws ([HookSpec]), not
       [Module Type]s, whose declarations would be assumptions.

    ** Choices and limits

    Every hook is a straight-line sequence of host calls, so no fuel is
    needed there.  The pipeline's driver [drive] takes fuel; seven steps
    are enough because each step lowers the measure [rank] of the phase
    (validate has rank 7, a final phase rank 0), which [drive_final]
    and [SbctlPipeline.sbctl_pipeline_terminates] prove.  External commands are not
    modelled: their effect is the [run] oracle of the context, and the
    theorems state the hypotheses on it they need (for instance that
    [sbctl completion bash] exits with status 0).  Directories are not
    modelled (the tree maps file paths to contents, and creating a file
    creates its directories), nor are file modes.  Downloading the
    source (the model receives the archive's digest), the Go and CMake
    build and install strategies (parameters of the pipeline) and the
    contents of the package are outside the repository and not
    modelled.  The cbuild
    destination layout of the install helpers (man pages under
    [usr/share/man/man<section>], completions under the shell's vendor
    directory, licenses under [usr/share/licenses/<pkgname>]) follows
    the host's conventions named by the spec.

    ** Not modelled

    - The [options] lists ([!cross], [!check]) are kept as data: the
      spec (section 9) leaves open whether they deny or allow a
      feature, and nothing in the repository decides it.
    - External tools (go, cmake, gmake, asciidoc, the built [sbctl]
      binary) are the [run] oracle; their output is a hypothesis.
    - The [repr] formatting of lists and functions in f-strings, which
      no template uses. *)

From Stdlib Require Export Ascii.
From stdpp Require Export base gmap strings list ssreflect.

#[export] Set Warnings "-rewrite-rw".

(** Strings are written with stdpp's literal notation; [+:+] appends. *)
Declare Scope cports_scope.
Delimit Scope cports_scope with cports.
Open Scope stdpp_scope.

Create HintDb cports.
Create Rewrite HintDb cports_rw.

(** ** Path helpers *)

(** pathlib's [p / "name"] on the host's POSIX paths. *)
Definition path_join (dir name : string) : string := dir +:+ "/" +:+ name.
Infix "</>" := path_join (at level 40, left associativity) : cports_scope.
Open Scope cports_scope.

(** Does a character occur in a string. *)
Fixpoint has_char (c : ascii) (s : string) : bool :=
  match s with
  | EmptyString => false
  | String a r => bool_decide (a = c) || has_char c r
  end.

(** The part of [s] after the last occurrence of [c]; all of [s] when [c]
    does not occur. *)
Fixpoint after_last (c : ascii) (s : string) : string :=
  match s with
  | EmptyString => EmptyString
  | String a r =>
      if has_char c r then after_last c r
      else if bool_decide (a = c) then r else s
  end.

(** [PurePath.name]: the last component of a path. *)
Definition basename (p : string) : string := after_last "/"%char p.

(** [PurePath.suffix] without its dot: what follows the last dot of the
    last component, empty when it has none. *)
Definition suffix (p : string) : string :=
  let b := basename p in
  if has_char "."%char b then after_last "."%char b else EmptyString.

(** ** Generic lemmas on strings *)

(** stdpp makes [String.append] opaque to [simpl]; these are its two
    defining equations. *)
Lemma string_app_nil (b : string) : EmptyString +:+ b = b.
Proof. reflexivity. Qed.

Lemma string_app_cons (x : ascii) (a b : string) :
  String x a +:+ b = String x (a +:+ b).
Proof. reflexivity. Qed.

Lemma string_app_assoc (a b c : string) : (a +:+ b) +:+ c = a +:+ (b +:+ c).
Proof. induction a as [|x a IH]; [done|]. by rewrite !string_app_cons IH. Qed.

Lemma string_app_nil_r (a : string) : a +:+ EmptyString = a.
Proof. induction a as [|x a IH]; [done|]. by rewrite string_app_cons IH. Qed.

Lemma path_join_inj (d a b : string) : d </> a = d </> b -> a = b.
Proof. rewrite /path_join. by intros ?%(inj _)%(inj _). Qed.

Lemma path_join_ne (d a b : string) : a <> b -> d </> a <> d </> b.
Proof. intros Hab Heq. by apply Hab, (path_join_inj d). Qed.

Lemma has_char_app (c : ascii) (a b : string) :
  has_char c (a +:+ b) = has_char c a || has_char c b.
Proof.
  induction a as [|x a IH]; [done|].
  by rewrite string_app_cons /= IH orb_assoc.
Qed.

Lemma after_last_no_char (c : ascii) (s : string) :
  has_char c s = false -> after_last c s = s.
Proof.
  induction s as [|a r IH]; [done|]. cbn [has_char after_last].
  intros [Ha Hr]%orb_false_iff. by rewrite Hr Ha.
Qed.

(** What follows the last [c] of [s +:+ c :: t], when [t] has no [c]. *)
Lemma after_last_app (c : ascii) (s t : string) :
  has_char c t = false -> after_last c (s +:+ String c t) = t.
Proof.
  intros Ht. induction s as [|a r IH].
  - rewrite string_app_nil /= Ht bool_decide_eq_true_2; done.
  - rewrite string_app_cons /= has_char_app /= bool_decide_eq_true_2 //.
    by rewrite orb_true_r.
Qed.

Lemma basename_join (d n : string) :
  has_char "/"%char n = false -> basename (d </> n) = n.
Proof.
  intros Hn. rewrite /basename /path_join.
  exact (after_last_app "/"%char d n Hn).
Qed.

#[export] Hint Resolve path_join_ne : cports.
#[export] Hint Rewrite string_app_nil string_app_cons string_app_assoc string_app_nil_r has_char_app : cports_rw.

(** [decide_closed] closes a decidable goal about closed terms (string
    (in)equalities, list membership) by evaluating its decision. *)
Ltac decide_closed :=
  match goal with |- ?P => apply (bool_decide_unpack P); vm_compute; reflexivity end.

(** [path_eq] proves an equation between two paths built from the same
    variables by [</>] and [+:+]: both sides are brought to one
    right-nested append and compared. *)
Ltac path_eq := rewrite /path_join; autorewrite with cports_rw; reflexivity.

(** [path_ne] proves that two paths under one directory differ. *)
Ltac path_ne := apply path_join_ne; discriminate.

(** [list_mem] proves that a term is an element of a concrete list, up to
    conversion. *)
Ltac list_mem := repeat first [apply list_elem_of_here | apply list_elem_of_further].

(** ** Contiguous occurrence in a list *)

(** [segment l1 l2]: [l1] occurs in [l2] as one contiguous block. *)
Definition segment {A} (l1 l2 : list A) : Prop := exists k1 k2, l2 = k1 ++ l1 ++ k2.

Lemma segment_app_l {A} (l1 k : list A) : segment l1 (k ++ l1).
Proof. exists k, []. by rewrite app_nil_r. Qed.

Lemma segment_prefix {A} (l1 l2 l3 : list A) :
  segment l1 l2 -> l2 `prefix_of` l3 -> segment l1 l3.
Proof.
  intros (k1 & k2 & ->) [k ->]. exists k1, (k2 ++ k). by rewrite -!app_assoc.
Qed.
