(* ===== verification/Host.v ===== *)
(** * The build context [self] the hooks receive

    Modelled from the spec (sections 3, 4.2, 6 and 7): the host build
    system is not part of the repository.  A hook is a computation of
    the monad [M] over the build state [BState] (file tree and event
    trace); a failing host call stops the hook and keeps the state it
    reached, as an exception raised by [self.do] leaves the files the
    hook already wrote.  The command-execution capability is the field
    [run] of the context: an oracle from a command and the current file
    tree to its exit status, its standard output and the tree it
    leaves. *)

From S2P Require Import Prelude.

(** ** Data *)

(** A command line: [self.do(prog, *args)]. *)
Record Cmd := mkCmd { cmd_prog : string; cmd_args : list string }.

(** What an external command does, as far as the hook can observe it. *)
#[export] Instance Cmd_eq_dec : EqDecision Cmd.
Proof. solve_decision. Defined.

Record CmdResult := mkResult {
  exit_code : nat;
  cmd_stdout : string;
  fs_after : gmap string string
}.

(** The build context object [self]. *)
Record Ctx := mkCtx {
  cwd : string;                 (** [self.cwd], the source tree *)
  make_dir : string;            (** [self.make_dir], relative to [cwd] *)
  destdir : string;             (** [self.destdir], the package tree *)
  ctx_pkgname : string;         (** [self.pkgname] *)
  run : Cmd -> gmap string string -> CmdResult
}.

(** What the host observes, in order. *)
Inductive Event :=
| EvRun (c : Cmd)
| EvOpen (p : string)
| EvInstall (src dest : string).

(** The failure taxonomy of spec section 7 that hooks can reach. *)
Inductive BuildError :=
| CommandFailed (c : Cmd) (code : nat)
| MissingFile (p : string)
| NoManSection (p : string)
| UnknownShell (shell : string).

Record BState := mkBState { fs : gmap string string; trace : list Event }.

Inductive outcome (A : Type) :=
| Done (a : A) (s : BState)
| Failed (e : BuildError) (s : BState).
Arguments Done {A} a s.
Arguments Failed {A} e s.

Definition outcome_state {A} (o : outcome A) : BState :=
  match o with Done _ s | Failed _ s => s end.

(** ** The hook monad *)

Definition M (A : Type) : Type := BState -> outcome A.

#[export] Instance M_ret : MRet M := fun A a s => Done a s.
#[export] Instance M_bind : MBind M := fun A B k m s =>
  match m s with
  | Done a s' => k a s'
  | Failed e s' => Failed e s'
  end.

(** Two hook computations are equivalent when they agree on every
    state; binds respect it. *)
#[export] Instance M_equiv {A} : Equiv (M A) := fun m1 m2 => forall s, m1 s = m2 s.

#[export] Instance M_equivalence {A} : Equivalence (≡@{M A}).
Proof. split; repeat intro; congruence. Qed.

#[export] Instance M_bind_proper {A B} :
  Proper (pointwise_relation A (≡) ==> (≡) ==> (≡@{M B})) mbind.
Proof.
  intros k1 k2 Hk m1 m2 Hm. rewrite /equiv /M_equiv => s.
  rewrite /mbind /M_bind Hm. destruct (m2 s); [apply Hk|done].
Qed.

Definition fail {A} (e : BuildError) : M A := fun s => Failed e s.

(** Append an event and replace the tree. *)
Definition commit (m : gmap string string) (ev : Event) (s : BState) : BState :=
  mkBState m (trace s ++ [ev]).

(** ** Host primitives *)

(** [self.do(prog, *args, stdout=cf)]: the command runs on the current
    tree; its output goes to the file [cf] when one is given; a non-zero
    exit status raises, after the output was written. *)
Definition do_ (ctx : Ctx) (c : Cmd) (stdout : option string) : M unit :=
  fun s =>
    let r := run ctx c (fs s) in
    let m := match stdout with
             | Some p => <[p := cmd_stdout r]> (fs_after r)
             | None => fs_after r
             end in
    if decide (exit_code r = 0) then Done tt (commit m (EvRun c) s)
    else Failed (CommandFailed c (exit_code r)) (commit m (EvRun c) s).

(** [open(p, "w")]: creates the file or truncates it. *)
Definition open_write (p : string) : M unit :=
  fun s => Done tt (commit (<[p := EmptyString]> (fs s)) (EvOpen p) s).

(** [with open(p, "w") as cf: body(cf)]; closing has no visible effect. *)
Definition with_open_write (p : string) (body : string -> M unit) : M unit :=
  open_write p;; body p.

(** [install_file]: copy [src] to [dest], both absolute; a missing
    source is an error reported with its path. *)
Definition install_file (src dest : string) : M unit :=
  fun s =>
    match fs s !! src with
    | Some c => Done tt (commit (<[dest := c]> (fs s)) (EvInstall src dest) s)
    | None => Failed (MissingFile src) s
    end.

(** [self.install_man(src)]: the section is the suffix of the file name. *)
Definition man_dest (ctx : Ctx) (src : string) : string :=
  destdir ctx </> "usr/share/man" </> ("man" +:+ suffix src) </> basename src.

Definition install_man (ctx : Ctx) (src : string) : M unit :=
  if decide (suffix src = EmptyString) then fail (NoManSection src)
  else install_file (cwd ctx </> src) (man_dest ctx src).

(** [self.install_completion(src, shell)]: the file is named after the
    package in the vendor directory of the shell. *)
Definition completion_dest (ctx : Ctx) (shell : string) : option string :=
  let n := ctx_pkgname ctx in
  if decide (shell = "bash") then
    Some (destdir ctx </> "usr/share/bash-completion/completions" </> n)
  else if decide (shell = "zsh") then
    Some (destdir ctx </> "usr/share/zsh/site-functions" </> ("_" +:+ n))
  else if decide (shell = "fish") then
    Some (destdir ctx </> "usr/share/fish/vendor_completions.d" </> (n +:+ ".fish"))
  else None.

Definition install_completion (ctx : Ctx) (src shell : string) : M unit :=
  match completion_dest ctx shell with
  | Some dest => install_file (cwd ctx </> src) dest
  | None => fail (UnknownShell shell)
  end.

(** [self.install_license(src)]. *)
Definition license_dest (ctx : Ctx) (src : string) : string :=
  destdir ctx </> "usr/share/licenses" </> ctx_pkgname ctx </> basename src.

Definition install_license (ctx : Ctx) (src : string) : M unit :=
  install_file (cwd ctx </> src) (license_dest ctx src).

(** ** The abstract specification of installing: a plan of copies *)

(** What an install hook promises: a list of copies [(source, dest)],
    performed in order. *)
Definition Plan := list (string * string).

(** The plan on a tree: [None] when a source is missing. *)
Fixpoint apply_plan (plan : Plan) (m : gmap string string)
    : option (gmap string string) :=
  match plan with
  | [] => Some m
  | (src, dest) :: rest => c ← m !! src; apply_plan rest (<[dest := c]> m)
  end.

(** The plan as host calls. *)
Fixpoint install_seq (plan : Plan) : M unit :=
  match plan with
  | [] => mret tt
  | (src, dest) :: rest => install_file src dest;; install_seq rest
  end.

(** The copies a plan makes, read in one tree: later copies win. *)
Fixpoint resolve (plan : Plan) (m : gmap string string)
    : option (gmap string string) :=
  match plan with
  | [] => Some ∅
  | (src, dest) :: rest =>
      c ← m !! src; X ← resolve rest m; Some (X ∪ {[dest := c]})
  end.

(** No copy overwrites a source of the plan. *)
Definition plan_disjoint (plan : Plan) : Prop := Forall (fun d => d ∉ plan.*1) plan.*2.

(** ** Predicates on commands, hooks and trees *)

(** [c] exits with status 0, prints [out] and changes no file. *)
Definition cmd_prints (ctx : Ctx) (c : Cmd) (out : string) : Prop :=
  forall m, run ctx c m = mkResult 0 out m.

(** [m] appends to the trace a prefix of [evs], all of [evs] when it
    succeeds. *)
Definition emits {A} (m : M A) (evs : list Event) : Prop :=
  forall s, exists evs', trace (outcome_state (m s)) = trace s ++ evs' /\
    evs' `prefix_of` evs /\ (forall a s', m s = Done a s' -> evs' = evs).

(** No path under [cwd] is a path under [destdir]: the host builds in a
    source tree and installs into a separate package tree. *)
Definition trees_disjoint (ctx : Ctx) : Prop :=
  forall a b, cwd ctx </> a <> destdir ctx </> b.

(** Every copy of the plan reads the source tree and writes the package
    tree. *)
Definition plan_in_trees (ctx : Ctx) (plan : Plan) : Prop :=
  Forall (fun '(src, dest) => (exists a, src = cwd ctx </> a) /\ exists b, dest = destdir ctx </> b) plan.

(** ** Laws of the monad *)

Lemma bind_Done {A B} (m : M A) (k : A -> M B) s a s' :
  m s = Done a s' -> (m ≫= k) s = k a s'.
Proof. intros H. rewrite /mbind /M_bind H //. Qed.

Lemma bind_Failed {A B} (m : M A) (k : A -> M B) s e s' :
  m s = Failed e s' -> (m ≫= k) s = Failed e s'.
Proof. intros H. rewrite /mbind /M_bind H //. Qed.

Lemma bind_ret_r (m : M unit) s : (m;; mret tt) s = m s.
Proof. rewrite /mbind /M_bind. by destruct (m s) as [[] ?|]. Qed.

Lemma outcome_cases {A} (o : outcome A) :
  (exists a s, o = Done a s) \/ (exists e s, o = Failed e s).
Proof. destruct o; eauto. Qed.

Lemma bind_ret_r_equiv (m : M unit) : (m;; mret tt) ≡ m.
Proof. rewrite /equiv /M_equiv => s. apply bind_ret_r. Qed.

Lemma bind_assoc {A B C} (m : M A) (k : A -> M B) (h : B -> M C) :
  ((m ≫= k) ≫= h) ≡ (m ≫= fun a => k a ≫= h).
Proof. rewrite /equiv /M_equiv => s. rewrite /mbind /M_bind. by destruct (m s). Qed.

(** [with open(p, "w") as cf: self.do(c, stdout=cf)] with such a command. *)
(** ** Equations of the primitives *)

Section Primitives.
Context (ctx : Ctx).

Lemma do_ok c stdout s out m :
  run ctx c (fs s) = mkResult 0 out m ->
  do_ ctx c stdout s =
    Done tt (commit (match stdout with Some p => <[p := out]> m | None => m end)
                    (EvRun c) s).
Proof. intros Hr. rewrite /do_ Hr //. Qed.

Lemma do_fail c stdout s r :
  run ctx c (fs s) = r -> exit_code r <> 0 ->
  do_ ctx c stdout s =
    Failed (CommandFailed c (exit_code r))
      (commit (match stdout with
               | Some p => <[p := cmd_stdout r]> (fs_after r)
               | None => fs_after r end) (EvRun c) s).
Proof. intros Hr Hc. rewrite /do_ Hr decide_False //. Qed.

Lemma install_file_ok src dest s c :
  fs s !! src = Some c ->
  install_file src dest s = Done tt (commit (<[dest := c]> (fs s)) (EvInstall src dest) s).
Proof. intros H. rewrite /install_file H //. Qed.

Lemma install_file_missing src dest s :
  fs s !! src = None -> install_file src dest s = Failed (MissingFile src) s.
Proof. intros H. rewrite /install_file H //. Qed.

Lemma install_man_eq src :
  suffix src <> EmptyString -> install_man ctx src = install_file (cwd ctx </> src) (man_dest ctx src).
Proof. intros H. rewrite /install_man decide_False //. Qed.

Lemma install_completion_eq src shell dest :
  completion_dest ctx shell = Some dest ->
  install_completion ctx src shell = install_file (cwd ctx </> src) dest.
Proof. intros H. rewrite /install_completion H //. Qed.
End Primitives.

Lemma with_open_write_eq p body s :
  with_open_write p body s = body p (commit (<[p := EmptyString]> (fs s)) (EvOpen p) s).
Proof. reflexivity. Qed.

(** ** The plan executor implements the plan *)

Lemma install_seq_Done (plan : Plan) s m' :
  (exists s', install_seq plan s = Done tt s' /\ fs s' = m') <->
  apply_plan plan (fs s) = Some m'.
Proof.
  revert s. induction plan as [|[src dest] rest IH]; intros s; simpl.
  - split; [by intros (s' & [= <-] & <-)|]. intros [= <-]. by exists s.
  - destruct (fs s !! src) as [c|] eqn:Hc; simpl.
    + rewrite (bind_Done _ _ _ _ _ (install_file_ok src dest s c Hc)).
      exact (IH (commit (<[dest:=c]> (fs s)) (EvInstall src dest) s)).
    + rewrite (bind_Failed _ _ _ _ _ (install_file_missing src dest s Hc)).
      split; [by intros (? & ? & _)|done].
Qed.

(** The executor stops at the first copy whose source is missing, after
    the copies before it, and reports that source. *)
Lemma install_seq_first_missing (pre post : Plan) src dest s m :
  apply_plan pre (fs s) = Some m -> m !! src = None ->
  install_seq (pre ++ (src, dest) :: post) s =
    Failed (MissingFile src)
      (mkBState m (trace s ++ ((fun '(a, b) => EvInstall a b) <$> pre))).
Proof.
  revert s. induction pre as [|[a b] pre IH]; intros s; simpl.
  - intros [= <-] Hm. rewrite (bind_Failed _ _ _ _ _ (install_file_missing _ _ s Hm)).
    by destruct s; rewrite /= app_nil_r.
  - destruct (fs s !! a) as [c|] eqn:Ha; [|done]. simpl. intros Hp Hm.
    rewrite (bind_Done _ _ _ _ _ (install_file_ok a b s c Ha)) IH //= -app_assoc //.
Qed.

Lemma resolve_agree (plan : Plan) m1 m2 :
  (forall k, k ∈ plan.*1 -> m1 !! k = m2 !! k) -> resolve plan m1 = resolve plan m2.
Proof.
  induction plan as [|[src dest] rest IH]; intros Hag; simpl; [done|].
  rewrite fmap_cons in Hag.
  rewrite (Hag src ltac:(set_solver)) IH //. intros k Hk. apply Hag. set_solver.
Qed.

Lemma resolve_lookup_None (plan : Plan) m X k :
  resolve plan m = Some X -> k ∉ plan.*2 -> X !! k = None.
Proof.
  revert X. induction plan as [|[src dest] rest IH]; intros X; simpl.
  - intros [= <-] _. apply lookup_empty.
  - intros HX Hk. destruct (m !! src) as [c|]; simplify_eq/=.
    destruct (resolve rest m) as [Y|] eqn:HY; simplify_eq/=.
    apply lookup_union_None_2; [apply IH; set_solver|].
    apply lookup_singleton_ne. set_solver.
Qed.

(** Under disjointness the plan is one union over the starting tree. *)
Lemma apply_plan_union (plan : Plan) m :
  plan_disjoint plan -> apply_plan plan m = (fun X => X ∪ m) <$> resolve plan m.
Proof.
  rewrite /plan_disjoint. revert m.
  induction plan as [|[src dest] rest IH]; intros m Hd; simpl.
  - by rewrite map_empty_union.
  - apply Forall_cons in Hd as [Hdest Hrest].
    destruct (m !! src) as [c|]; simpl; [|done].
    rewrite IH; last first.
    { eapply Forall_impl; [exact Hrest|]. simpl. set_solver. }
    rewrite (resolve_agree rest (<[dest:=c]> m) m); last first.
    { intros k Hk. apply lookup_insert_ne. set_solver. }
    destruct (resolve rest m) as [X|]; simpl; [|done].
    by rewrite insert_union_singleton_l map_union_assoc.
Qed.

(** Applying a disjoint plan a second time changes nothing. *)
Lemma apply_plan_idem (plan : Plan) m m' :
  plan_disjoint plan -> apply_plan plan m = Some m' -> apply_plan plan m' = Some m'.
Proof.
  intros Hd Hm. rewrite apply_plan_union // in Hm.
  destruct (resolve plan m) as [X|] eqn:HX; simplify_eq/=.
  rewrite apply_plan_union //.
  rewrite (resolve_agree plan (X ∪ m) m) ?HX /=; last first.
  { intros k Hk. apply lookup_union_r, (resolve_lookup_None plan m); [done|].
    intros Hk2. eapply Forall_forall in Hd; [|exact Hk2]. done. }
  by rewrite map_union_assoc map_union_idemp.
Qed.

Lemma resolve_src_Some (plan : Plan) m X src dest :
  resolve plan m = Some X -> (src, dest) ∈ plan -> is_Some (m !! src).
Proof.
  revert X. induction plan as [|[s0 d0] rest IH]; intros X; simpl; [set_solver|].
  destruct (m !! s0) eqn:H0; [|done]. simpl.
  destruct (resolve rest m) as [Y|] eqn:HY; [|done]. intros _ [[= -> ->]|Hin]%elem_of_cons.
  - by rewrite H0.
  - by eapply IH.
Qed.

Lemma resolve_lookup (plan : Plan) m X src dest :
  NoDup plan.*2 -> (src, dest) ∈ plan -> resolve plan m = Some X -> X !! dest = m !! src.
Proof.
  revert X. induction plan as [|[s0 d0] rest IH]; intros X Hnd Hin; simpl; [set_solver|].
  rewrite fmap_cons NoDup_cons in Hnd. destruct Hnd as [Hd0 Hnd].
  destruct (m !! s0) as [c|] eqn:H0; [|done]. simpl.
  destruct (resolve rest m) as [Y|] eqn:HY; [|done]. intros [= <-].
  apply elem_of_cons in Hin as [[= -> ->]|Hin].
  - rewrite lookup_union_r; last by eapply resolve_lookup_None.
    by rewrite lookup_singleton_eq.
  - destruct (resolve_src_Some rest m Y src dest HY Hin) as [v Hv].
    assert (Y !! dest = Some v) as HYd by (rewrite (IH Y) //).
    by rewrite (lookup_union_Some_l _ _ _ _ HYd).
Qed.

Lemma resolve_is_Some (plan : Plan) m :
  (forall k, k ∈ plan.*1 -> is_Some (m !! k)) -> is_Some (resolve plan m).
Proof.
  induction plan as [|[src dest] rest IH]; intros Hs; simpl; [done|].
  rewrite fmap_cons in Hs. destruct (Hs src) as [c ->]; [set_solver|]. simpl.
  destruct IH as [Y ->]; [intros k Hk; apply Hs; set_solver|]. done.
Qed.

(** A copy of a disjoint plan with distinct destinations puts the
    source's contents at its destination. *)
Lemma apply_plan_lookup (plan : Plan) m m' src dest :
  plan_disjoint plan -> NoDup plan.*2 -> (src, dest) ∈ plan ->
  apply_plan plan m = Some m' -> m' !! dest = m !! src.
Proof.
  intros Hd Hnd Hin. rewrite apply_plan_union //.
  destruct (resolve plan m) as [X|] eqn:HX; intros [= <-].
  destruct (resolve_src_Some plan m X src dest HX Hin) as [v Hv].
  assert (X !! dest = Some v) as HXd by (rewrite (resolve_lookup plan m X src dest) //).
  by rewrite (lookup_union_Some_l _ _ _ _ HXd).
Qed.

Lemma apply_plan_is_Some (plan : Plan) m :
  plan_disjoint plan -> (forall k, k ∈ plan.*1 -> is_Some (m !! k)) ->
  is_Some (apply_plan plan m).
Proof.
  intros Hd Hs. rewrite apply_plan_union //.
  by destruct (resolve_is_Some plan m Hs) as [X ->].
Qed.

Lemma open_do_prints ctx c p out s :
  cmd_prints ctx c out ->
  with_open_write p (fun cf => do_ ctx c (Some cf)) s =
    Done tt (mkBState (<[p := out]> (fs s)) (trace s ++ [EvOpen p; EvRun c])).
Proof.
  intros Hc. rewrite /with_open_write.
  rewrite (bind_Done _ _ _ tt (commit (<[p:=EmptyString]> (fs s)) (EvOpen p) s)) //.
  rewrite (do_ok ctx c (Some p) _ out (<[p:=EmptyString]> (fs s))) ?Hc //.
  rewrite /commit /= insert_insert_eq -app_assoc //.
Qed.

Lemma emits_do ctx c stdout : emits (do_ ctx c stdout) [EvRun c].
Proof.
  intros s. exists [EvRun c]. rewrite /do_. split_and!; [by case_decide|done|done].
Qed.

Lemma emits_open p : emits (open_write p) [EvOpen p].
Proof. intros s. by exists [EvOpen p]. Qed.

Lemma emits_ret : emits (mret tt) [].
Proof. intros s. exists []. split_and!; [by rewrite app_nil_r|done|done]. Qed.

Lemma emits_bind {A B} (m : M A) (k : A -> M B) e1 e2 :
  emits m e1 -> (forall a, emits (k a) e2) -> emits (m ≫= k) (e1 ++ e2).
Proof.
  intros Hm Hk s. rewrite /mbind /M_bind.
  destruct (Hm s) as (e1' & Ht1 & Hp1 & Hd1). destruct (m s) as [a s1|e s1] eqn:Hs.
  - rewrite (Hd1 a s1) // in Ht1. destruct (Hk a s1) as (e2' & Ht2 & Hp2 & Hd2).
    exists (e1 ++ e2'). rewrite Ht2 Ht1 -app_assoc. split_and!; [done| |].
    + by apply prefix_app.
    + intros b s' Hb. by rewrite (Hd2 b s').
  - exists e1'. split_and!; [done| |done].
    by apply prefix_app_r.
Qed.

Lemma emits_with_open p c ctx :
  emits (with_open_write p (fun cf => do_ ctx c (Some cf))) [EvOpen p; EvRun c].
Proof. apply (emits_bind _ _ [EvOpen p] [EvRun c]); [apply emits_open|intros; apply emits_do]. Qed.

Lemma emits_prefix {A} (m : M A) evs s :
  emits m evs -> trace s `prefix_of` trace (outcome_state (m s)).
Proof. intros Hm. destruct (Hm s) as (e & -> & _). by apply prefix_app_r. Qed.

Lemma emits_proper {A} (m1 m2 : M A) evs : m1 ≡ m2 -> emits m1 evs -> emits m2 evs.
Proof. intros Heq Hm s. rewrite -(Heq s). apply Hm. Qed.

Lemma emits_install_file src dest : emits (install_file src dest) [EvInstall src dest].
Proof.
  intros s. rewrite /install_file. destruct (fs s !! src).
  - by exists [EvInstall src dest].
  - exists []. split_and!; [by rewrite app_nil_r|apply prefix_nil|done].
Qed.

Lemma emits_install_seq plan :
  emits (install_seq plan) ((fun '(src, dest) => EvInstall src dest) <$> plan).
Proof.
  induction plan as [|[src dest] rest IH]; simpl.
  - intros s. exists []. split_and!; [by rewrite app_nil_r|done|done].
  - apply (emits_bind _ _ [_] _); [apply emits_install_file|intros _; apply IH].
Qed.

(** A disjoint plan leaves every path that is not a destination. *)
Lemma apply_plan_lookup_other (plan : Plan) m m' k :
  plan_disjoint plan -> k ∉ plan.*2 -> apply_plan plan m = Some m' -> m' !! k = m !! k.
Proof.
  intros Hd Hk. rewrite apply_plan_union //.
  destruct (resolve plan m) as [X|] eqn:HX; intros [= <-].
  by rewrite lookup_union_r // (resolve_lookup_None plan m X k).
Qed.

Lemma plan_disjoint_trees ctx plan :
  trees_disjoint ctx -> plan_in_trees ctx plan -> plan_disjoint plan.
Proof.
  intros Htd Hin. apply Forall_forall. intros d Hd Hs.
  apply list_elem_of_fmap in Hd as ([s1 d1] & -> & Hd1).
  apply list_elem_of_fmap in Hs as ([s2 d2] & Heq & Hs2). simpl in *.
  eapply Forall_forall in Hd1; [|exact Hin]. eapply Forall_forall in Hs2; [|exact Hin].
  destruct Hd1 as [_ [b ->]], Hs2 as [[a ->] _]. by eapply Htd.
Qed.

(** ** Bounds *)

(** A computation that emits [evs] adds at most [length evs] events. *)
Lemma emits_length {A} (m : M A) evs s :
  emits m evs -> length (trace (outcome_state (m s))) <= length (trace s) + length evs.
Proof.
  intros Hm. destruct (Hm s) as (e & -> & Hp & _). rewrite length_app.
  apply prefix_length in Hp. lia.
Qed.

Lemma size_insert_le (m : gmap string string) i x : size (<[i:=x]> m) <= S (size m).
Proof. rewrite map_size_insert. case_match; simpl; lia. Qed.

(** The plan executor adds at most one file per copy. *)
Lemma install_seq_size (plan : Plan) s :
  size (fs (outcome_state (install_seq plan s))) <= size (fs s) + length plan.
Proof.
  revert s. induction plan as [|[src dest] rest IH]; intros s; simpl; [lia|].
  destruct (fs s !! src) as [c|] eqn:Hc.
  - rewrite (bind_Done _ _ _ _ _ (install_file_ok src dest s c Hc)).
    etrans; [apply IH|]. have := size_insert_le (fs s) dest c. simpl. lia.
  - rewrite (bind_Failed _ _ _ _ _ (install_file_missing src dest s Hc)) /=. lia.
Qed.
