(* ===== verification/Template.v ===== *)
(** * The template schema and its validation

    The fields a template module assigns (spec section 3; the assignments
    of [src/contrib/sbctl/template.py] lines 1-16 and of
    [src/contrib/neovim/template.py] lines 2-37), the hooks it may
    define, and the host's check that a template is buildable (spec
    section 3, "Invariants", and section 7 (a)): an executable checker
    [validate] returning the first error, proved equivalent to the
    propositional well-formedness [wf]. *)

From S2P Require Import Prelude Host.

(** ** The schema *)

Record Template := mkTemplate {
  pkgname : string;
  pkgver : string;
  pkgrel : nat;
  build_style : string;
  configure_args : list string;
  make_build_args : list string;
  hostmakedepends : list string;
  makedepends : list string;
  depends : list string;
  pkgdesc : string;
  maintainer : string;
  license : string;
  url : string;
  source : string;
  sha256 : string;
  options : list string;
  hook_post_build : option (Ctx -> M unit);
  hook_post_install : option (Ctx -> M unit)
}.

(** The build styles the two templates select. *)
Inductive BuildStyle := StyleGo | StyleCMake.

Definition parse_build_style (s : string) : option BuildStyle :=
  if decide (s = "go") then Some StyleGo
  else if decide (s = "cmake") then Some StyleCMake
  else None.

(** ** Validation *)

Inductive ValidationError :=
| EmptyField (field : string)
| BadChecksum (value : string)
| UnknownBuildStyle (style : string)
| DuplicateDep (list_name dep : string).

(** A hexadecimal digit, either case. *)
Definition is_hex_digit (c : ascii) : bool :=
  let n := nat_of_ascii c in
  ((48 <=? n) && (n <=? 57)) || ((97 <=? n) && (n <=? 102))
  || ((65 <=? n) && (n <=? 70)).

Definition is_sha256 (s : string) : bool :=
  (String.length s =? 64) && forallb is_hex_digit (String.list_ascii_of_string s).

(** The first entry of a list that occurs again later. *)
Fixpoint find_dup (l : list string) : option string :=
  match l with
  | [] => None
  | x :: r => if decide (x ∈ r) then Some x else find_dup r
  end.

Definition check_deps (name : string) (l : list string) : option ValidationError :=
  DuplicateDep name <$> find_dup l.

(** The host's schema check: the first error, or the template. *)
Definition validate (t : Template) : ValidationError + Template :=
  if decide (pkgname t = EmptyString) then inl (EmptyField "pkgname")
  else if decide (pkgver t = EmptyString) then inl (EmptyField "pkgver")
  else if decide (sha256 t = EmptyString) then inl (EmptyField "sha256")
  else if negb (is_sha256 (sha256 t)) then inl (BadChecksum (sha256 t))
  else match parse_build_style (build_style t) with
  | None => inl (UnknownBuildStyle (build_style t))
  | Some _ =>
      match check_deps "hostmakedepends" (hostmakedepends t),
            check_deps "makedepends" (makedepends t),
            check_deps "depends" (depends t) with
      | Some e, _, _ | None, Some e, _ | None, None, Some e => inl e
      | None, None, None => inr t
      end
  end.

(** ** Well-formedness *)

Definition sha256_wf (s : string) : Prop :=
  String.length s = 64 /\ Forall (fun c => is_hex_digit c = true) (String.list_ascii_of_string s).

Record wf (t : Template) : Prop := {
  wf_pkgname : pkgname t <> EmptyString;
  wf_pkgver : pkgver t <> EmptyString;
  wf_sha256 : sha256_wf (sha256 t);
  wf_style : is_Some (parse_build_style (build_style t));
  wf_hostmakedepends : NoDup (hostmakedepends t);
  wf_makedepends : NoDup (makedepends t);
  wf_depends : NoDup (depends t)
}.

(** ** Lemmas *)

Lemma find_dup_None (l : list string) : find_dup l = None <-> NoDup l.
Proof.
  induction l as [|x r IH]; simpl.
  - split; [constructor|done].
  - rewrite NoDup_cons. case_decide; [naive_solver|]. rewrite IH. naive_solver.
Qed.

Lemma check_deps_None name (l : list string) : check_deps name l = None <-> NoDup l.
Proof. rewrite /check_deps -find_dup_None. by destruct (find_dup l). Qed.

Lemma is_sha256_spec (s : string) : is_sha256 s = true <-> sha256_wf s.
Proof.
  rewrite /is_sha256 /sha256_wf andb_true_iff Nat.eqb_eq forallb_forall Forall_forall.
  by setoid_rewrite list_elem_of_In.
Qed.

Lemma sha256_wf_nonempty (s : string) : sha256_wf s -> s <> EmptyString.
Proof. by intros [Hl _] ->. Qed.

Lemma validate_inr (t t' : Template) : validate t = inr t' -> t' = t.
Proof. rewrite /validate. repeat case_decide; repeat case_match; naive_solver. Qed.

#[export] Hint Resolve sha256_wf_nonempty : cports.

(** The host's schema check accepts a template exactly when the
    template is well formed: non-empty name and version, a 64-digit
    hexadecimal checksum, a known build style and no duplicated entry in
    any dependency list. *)
Theorem validate_correct (t : Template) : validate t = inr t <-> wf t.
Proof.
  rewrite /validate. split.
  - repeat case_decide; try done.
    destruct (is_sha256 (sha256 t)) eqn:Hs; [|done]. simpl.
    destruct (parse_build_style _) eqn:Hb; [|done].
    destruct (check_deps "hostmakedepends" (hostmakedepends t)) eqn:Hd1,
             (check_deps "makedepends" (makedepends t)) eqn:Hd2,
             (check_deps "depends" (depends t)) eqn:Hd3; try done.
    intros _. split; try done.
    + by apply is_sha256_spec.
    + by apply (check_deps_None "hostmakedepends").
    + by apply (check_deps_None "makedepends").
    + by apply (check_deps_None "depends").
  - intros [? ? Hs [b Hb] H1 H2 H3].
    rewrite !decide_False; eauto with cports.
    apply is_sha256_spec in Hs. rewrite Hs Hb /=.
    apply (check_deps_None "hostmakedepends") in H1.
    apply (check_deps_None "makedepends") in H2.
    apply (check_deps_None "depends") in H3.
    by rewrite H1 H2 H3.
Qed.
