(* ===== verification/Sbctl.v ===== *)
(** * [src/contrib/sbctl/template.py]: the Secure Boot key manager

    [Meta] holds the module-level assignments (lines 1-16), [template]
    gathers them in the schema of [Template].  [post_build] (lines
    19-48) runs [gmake man] and writes the three shell completion files
    from the output of the built [sbctl] binary; [post_install] (lines
    51-58) installs the man page, the completions and the license.  The
    theorems relate [post_build] to the files and trace it produces on
    success ([PostBuild] treats its failures), [post_install] to the
    abstract install plan [install_plan], and the two hooks to each
    other. *)

From S2P Require Import Prelude Host Template.

Module Sbctl.

(** ** Metadata, lines 1-16 *)

Module Meta.
Definition pkgname : string := "sbctl".
Definition pkgver : string := "0.12".
Definition pkgrel : nat := 0.
Definition build_style : string := "go".
Definition make_build_args : list string := ["./cmd/sbctl"].
Definition hostmakedepends : list string := ["go"; "asciidoc"; "gmake"].
Definition depends : list string := ["llvm-binutils"].
Definition pkgdesc : string := "Secure Boot key manager".
Definition maintainer : string := "flukey <flukey@vapourmail.eu>".
Definition license : string := "MIT".
Definition url : string := "https://github.com/Foxboron/sbctl".
(** [f"{url}/releases/download/{pkgver}/{pkgname}-{pkgver}.tar.gz"] *)
Definition source_of (url pkgver pkgname : string) : string :=
  url +:+ "/releases/download/" +:+ pkgver +:+ "/" +:+ pkgname +:+ "-"
      +:+ pkgver +:+ ".tar.gz".
Definition source : string := source_of url pkgver pkgname.
Definition sha256 : string :=
  "72475519733385b0effb422ff058e95f0282fa93eccf03df07e3402736646b97".
Definition options : list string := ["!cross"].
End Meta.

(** ** Hooks *)

(** [self.make_dir + "/sbctl"] with a shell argument, lines 25-30 and
    their two copies. *)
Definition completion_cmd (ctx : Ctx) (shell : string) : Cmd :=
  mkCmd (make_dir ctx +:+ "/sbctl") ["completion"; shell].

Definition man_cmd : Cmd := mkCmd "gmake" ["man"].

Definition post_build (ctx : Ctx) : M unit :=
  do_ ctx (mkCmd "gmake" ["man"]) None;;
  with_open_write (cwd ctx </> "sbctl.bash") (fun cf =>
    do_ ctx (mkCmd (make_dir ctx +:+ "/sbctl") ["completion"; "bash"]) (Some cf));;
  with_open_write (cwd ctx </> "sbctl.zsh") (fun cf =>
    do_ ctx (mkCmd (make_dir ctx +:+ "/sbctl") ["completion"; "zsh"]) (Some cf));;
  with_open_write (cwd ctx </> "sbctl.fish") (fun cf =>
    do_ ctx (mkCmd (make_dir ctx +:+ "/sbctl") ["completion"; "fish"]) (Some cf)).

Definition post_install (ctx : Ctx) : M unit :=
  install_man ctx "docs/sbctl.8";;
  install_completion ctx "sbctl.bash" "bash";;
  install_completion ctx "sbctl.zsh" "zsh";;
  install_completion ctx "sbctl.fish" "fish";;
  install_license ctx "LICENSE".

Definition template : Template := {|
  pkgname := Meta.pkgname;
  pkgver := Meta.pkgver;
  pkgrel := Meta.pkgrel;
  build_style := Meta.build_style;
  configure_args := [];
  make_build_args := Meta.make_build_args;
  hostmakedepends := Meta.hostmakedepends;
  makedepends := [];
  depends := Meta.depends;
  pkgdesc := Meta.pkgdesc;
  maintainer := Meta.maintainer;
  license := Meta.license;
  url := Meta.url;
  source := Meta.source;
  sha256 := Meta.sha256;
  options := Meta.options;
  hook_post_build := Some post_build;
  hook_post_install := Some post_install
|}.

(** ** The specification of the hooks *)

(** The events of a complete [post_build], in source order. *)
Definition post_build_events (ctx : Ctx) : list Event :=
  [EvRun man_cmd;
   EvOpen (cwd ctx </> "sbctl.bash"); EvRun (completion_cmd ctx "bash");
   EvOpen (cwd ctx </> "sbctl.zsh"); EvRun (completion_cmd ctx "zsh");
   EvOpen (cwd ctx </> "sbctl.fish"); EvRun (completion_cmd ctx "fish")].

(** What [post_install] promises: five copies, destinations spelled out
    in the host's conventional layout. *)
Definition install_plan (ctx : Ctx) : Plan :=
  let n := ctx_pkgname ctx in
  let d := destdir ctx in
  [(cwd ctx </> "docs/sbctl.8", d </> "usr/share/man/man8/sbctl.8");
   (cwd ctx </> "sbctl.bash", d </> ("usr/share/bash-completion/completions/" +:+ n));
   (cwd ctx </> "sbctl.zsh", d </> ("usr/share/zsh/site-functions/_" +:+ n));
   (cwd ctx </> "sbctl.fish", d </> ("usr/share/fish/vendor_completions.d/" +:+ n +:+ ".fish"));
   (cwd ctx </> "LICENSE", d </> ("usr/share/licenses/" +:+ n +:+ "/LICENSE"))].

Definition shells : list string := ["bash"; "zsh"; "fish"].

(** The file [post_build] writes for a shell, relative to [cwd]. *)
Definition completion_file (ctx : Ctx) (shell : string) : string :=
  cwd ctx </> ("sbctl." +:+ shell).

(** The tree a successful [post_build] leaves: the three completion
    files over the tree [gmake man] left. *)
Definition built_tree (ctx : Ctx) (m1 : gmap string string) (out : string -> string)
    : gmap string string :=
  <[completion_file ctx "fish" := out "fish"]>
    (<[completion_file ctx "zsh" := out "zsh"]>
      (<[completion_file ctx "bash" := out "bash"]> m1)).

(** ** A concrete build, for the witnesses *)

Definition demo_cwd : string := "/builddir/sbctl-0.12".
Definition demo_out (shell : string) : string := "# sbctl completion for " +:+ shell.

(** The external commands of a build: [gmake man] writes the man page;
    [build/sbctl completion <shell>] prints a script, or fails for zsh
    when [zsh_ok] is false; [go build] writes the binary; anything else
    is not found. *)
Definition demo_run (zsh_ok : bool) (c : Cmd) (m : gmap string string) : CmdResult :=
  if decide (c = man_cmd) then
    mkResult 0 EmptyString (<[demo_cwd </> "docs/sbctl.8" := ".TH SBCTL 8"]> m)
  else if decide (cmd_prog c = "build/sbctl") then
    match cmd_args c with
    | ["completion"; sh] =>
        if zsh_ok || negb (bool_decide (sh = "zsh")) then mkResult 0 (demo_out sh) m
        else mkResult 1 "unknown shell" m
    | _ => mkResult 2 EmptyString m
    end
  else if decide (cmd_prog c = "go") then
    mkResult 0 EmptyString (<[demo_cwd </> "build/sbctl" := "ELF"]> m)
  else mkResult 127 EmptyString m.

Definition demo_ctx (zsh_ok : bool) : Ctx :=
  mkCtx demo_cwd "build" "/destdir/sbctl-0.12" "sbctl" (demo_run zsh_ok).

Definition demo_state : BState := mkBState {[demo_cwd </> "LICENSE" := "MIT License"]} [].
Definition demo_m1 : gmap string string :=
  <[demo_cwd </> "docs/sbctl.8" := ".TH SBCTL 8"]> (fs demo_state).

Definition demo_built : BState :=
  mkBState (<[demo_cwd </> "sbctl.bash" := demo_out "bash"]>
           (<[demo_cwd </> "sbctl.zsh" := demo_out "zsh"]>
           (<[demo_cwd </> "sbctl.fish" := demo_out "fish"]> demo_m1))) [].

End Sbctl.
Export Sbctl.

(** ** Lemmas: the host calls of the hooks, evaluated *)

Section Hooks.
Context (ctx : Ctx).

Lemma man_dest_sbctl :
  man_dest ctx "docs/sbctl.8" = destdir ctx </> "usr/share/man/man8/sbctl.8".
Proof.
  rewrite /man_dest.
  change (suffix "docs/sbctl.8") with "8". change (basename "docs/sbctl.8") with "sbctl.8".
  path_eq.
Qed.

Lemma completion_dest_bash :
  completion_dest ctx "bash" =
    Some (destdir ctx </> ("usr/share/bash-completion/completions/" +:+ ctx_pkgname ctx)).
Proof. rewrite /completion_dest /=. f_equal. path_eq. Qed.

Lemma completion_dest_zsh :
  completion_dest ctx "zsh" =
    Some (destdir ctx </> ("usr/share/zsh/site-functions/_" +:+ ctx_pkgname ctx)).
Proof. rewrite /completion_dest /=. f_equal. path_eq. Qed.

Lemma completion_dest_fish :
  completion_dest ctx "fish" =
    Some (destdir ctx </>
          ("usr/share/fish/vendor_completions.d/" +:+ ctx_pkgname ctx +:+ ".fish")).
Proof.
  rewrite /completion_dest /=. f_equal. path_eq.
Qed.

Lemma license_dest_sbctl :
  license_dest ctx "LICENSE" =
    destdir ctx </> ("usr/share/licenses/" +:+ ctx_pkgname ctx +:+ "/LICENSE").
Proof. rewrite /license_dest. change (basename "LICENSE") with "LICENSE". path_eq. Qed.

(** [post_install] is the plan, run by the host. *)
Lemma sbctl_post_install_seq : post_install ctx ≡ install_seq (install_plan ctx).
Proof.
  rewrite /post_install install_man_eq; last decide_closed.
  rewrite (install_completion_eq _ _ _ _ completion_dest_bash)
          (install_completion_eq _ _ _ _ completion_dest_zsh)
          (install_completion_eq _ _ _ _ completion_dest_fish).
  rewrite /install_license man_dest_sbctl license_dest_sbctl /=.
  by setoid_rewrite bind_ret_r_equiv.
Qed.

(** A successful [post_build], state by state. *)
Lemma post_build_ok s o m1 out :
  run ctx man_cmd (fs s) = mkResult 0 o m1 ->
  (forall sh, sh ∈ shells -> cmd_prints ctx (completion_cmd ctx sh) (out sh)) ->
  post_build ctx s =
    Done tt (mkBState (built_tree ctx m1 out) (trace s ++ post_build_events ctx)).
Proof.
  intros Hman Hsh. rewrite /post_build.
  rewrite (bind_Done _ _ _ tt (commit m1 (EvRun man_cmd) s)); last exact (do_ok ctx man_cmd None s o m1 Hman).
  have Hc sh : sh ∈ shells -> forall s',
    with_open_write (completion_file ctx sh)
      (fun cf => do_ ctx (completion_cmd ctx sh) (Some cf)) s' =
    Done tt (mkBState (<[completion_file ctx sh := out sh]> (fs s'))
               (trace s' ++ [EvOpen (completion_file ctx sh); EvRun (completion_cmd ctx sh)])).
  { intros Hin s'. by apply open_do_prints, Hsh. }
  rewrite (bind_Done _ _ _ tt _ (Hc "bash" ltac:(set_solver) _)).
  rewrite (bind_Done _ _ _ tt _ (Hc "zsh" ltac:(set_solver) _)).
  rewrite (Hc "fish" ltac:(set_solver)) /=.
  by rewrite -!app_assoc.
Qed.
End Hooks.

Lemma install_plan_in_trees ctx : plan_in_trees ctx (install_plan ctx).
Proof. repeat constructor; eexists; reflexivity. Qed.

Lemma install_plan_nodup ctx : NoDup (install_plan ctx).*2.
Proof.
  rewrite /install_plan /=. repeat constructor; set_unfold; intros Hin; destruct_or!;
    apply path_join_inj in Hin; discriminate Hin.
Qed.

Lemma completion_file_inj ctx a b : completion_file ctx a = completion_file ctx b -> a = b.
Proof. rewrite /completion_file. by intros ?%path_join_inj%(inj _). Qed.

Lemma completion_file_other ctx sh p :
  sh ∈ shells -> p ∉ completion_file ctx <$> shells -> completion_file ctx sh <> p.
Proof. intros Hsh Hp <-. apply Hp, list_elem_of_fmap_2, Hsh. Qed.

Lemma built_tree_completion ctx m1 out sh :
  sh ∈ shells -> built_tree ctx m1 out !! completion_file ctx sh = Some (out sh).
Proof.
  intros Hin. set_unfold in Hin.
  destruct_or! Hin; subst sh; rewrite /built_tree !lookup_insert; repeat case_decide; try done;
    match goal with H : completion_file _ _ = completion_file _ _ |- _ =>
      apply completion_file_inj in H; discriminate H end.
Qed.

Lemma built_tree_other ctx m1 out p :
  p ∉ completion_file ctx <$> shells -> built_tree ctx m1 out !! p = m1 !! p.
Proof. intros Hp. rewrite /built_tree !lookup_insert_ne //; apply completion_file_other; set_solver. Qed.

Lemma not_completion_file ctx a :
  a ∉ ["sbctl.bash"; "sbctl.zsh"; "sbctl.fish"] -> cwd ctx </> a ∉ completion_file ctx <$> shells.
Proof.
  intros Ha (sh & Heq & Hsh)%list_elem_of_fmap. apply path_join_inj in Heq. subst a.
  set_unfold in Hsh. destruct_or! Hsh; subst sh; set_solver.
Qed.

(** [post_install] over a tree that holds the completion files, the man
    page and the license: each shell's completion is installed with the
    contents of its file, and the man page with the generated page. *)
Lemma post_install_after_build ctx s out :
  trees_disjoint ctx ->
  (forall sh, sh ∈ shells -> fs s !! completion_file ctx sh = Some (out sh)) ->
  is_Some (fs s !! (cwd ctx </> "docs/sbctl.8")) -> is_Some (fs s !! (cwd ctx </> "LICENSE")) ->
  exists s', post_install ctx s = Done tt s' /\
    (forall sh dest, sh ∈ shells -> completion_dest ctx sh = Some dest ->
       fs s' !! dest = Some (out sh)) /\
    fs s' !! man_dest ctx "docs/sbctl.8" = fs s !! (cwd ctx </> "docs/sbctl.8").
Proof.
  intros Htd Hc Hdoc Hlic. have Hd := plan_disjoint_trees ctx _ Htd (install_plan_in_trees ctx).
  destruct (apply_plan_is_Some (install_plan ctx) (fs s)) as [m' Hm']; [done| |].
  { rewrite /install_plan /=. set_unfold. intros k Hk. destruct_or! Hk; subst k;
      try done; rewrite Hc //; set_solver. }
  have [s' [Hs' Hfs]] : exists s', install_seq (install_plan ctx) s = Done tt s' /\ fs s' = m'
    by apply install_seq_Done.
  exists s'. split; [by rewrite (sbctl_post_install_seq ctx s)|]. rewrite Hfs.
  have Hlook src dest : (src, dest) ∈ install_plan ctx -> m' !! dest = fs s !! src.
  { intros Hin. exact (apply_plan_lookup _ _ m' src dest Hd (install_plan_nodup ctx) Hin Hm'). }
  split.
  - intros sh dest Hin. rewrite -(Hc sh Hin). set_unfold in Hin. destruct_or! Hin; subst sh.
    + rewrite completion_dest_bash => -[<-]. apply Hlook. list_mem.
    + rewrite completion_dest_zsh => -[<-]. apply Hlook. list_mem.
    + rewrite completion_dest_fish => -[<-]. apply Hlook. list_mem.
  - rewrite man_dest_sbctl. apply Hlook. list_mem.
Qed.

Lemma post_install_emits ctx :
  emits (post_install ctx) ((fun '(src, dest) => EvInstall src dest) <$> install_plan ctx).
Proof. eapply emits_proper; [symmetry; apply sbctl_post_install_seq|apply emits_install_seq]. Qed.

#[export] Hint Resolve install_plan_in_trees install_plan_nodup : cports.

(** ** Properties of [post_build] *)

(** C1: when [gmake man] and the three [sbctl completion <shell>]
    commands succeed (the latter only printing), [post_build] succeeds,
    each completion file [sbctl.<shell>] of the source tree holds the
    output of the command for its shell, and every other file is as
    [gmake man] left it. *)
Theorem post_build_writes_completions ctx s o m1 out :
  run ctx man_cmd (fs s) = mkResult 0 o m1 ->
  (forall sh, sh ∈ shells -> cmd_prints ctx (completion_cmd ctx sh) (out sh)) ->
  exists s', post_build ctx s = Done tt s' /\
    (forall sh, sh ∈ shells -> fs s' !! completion_file ctx sh = Some (out sh)) /\
    (forall p, p ∉ completion_file ctx <$> shells -> fs s' !! p = m1 !! p).
Proof.
  intros Hman Hsh. eexists; split; [by apply (post_build_ok ctx s o m1 out)|]. simpl.
  split; [intros sh Hin; by apply built_tree_completion|intros p Hp; by apply built_tree_other].
Qed.

(** [post_build] emits its events in source order: [gmake man], then
    for bash, zsh and fish in turn the opening of the completion file and
    the completion command; it stops after a prefix of this sequence, and
    emits all of it when it succeeds. *)
Lemma post_build_emits ctx : emits (post_build ctx) (post_build_events ctx).
Proof.
  rewrite /post_build.
  apply (emits_bind _ _ [_] (_ :: _ :: _ :: _ :: _ :: _ :: [])); [apply emits_do|intros _].
  apply (emits_bind _ _ [_; _] (_ :: _ :: _ :: _ :: [])); [apply emits_with_open|intros _].
  apply (emits_bind _ _ [_; _] [_; _]); [apply emits_with_open|intros _].
  apply emits_with_open.
Qed.

(** ** Properties of [post_install] *)

(** C2: [post_install] refines the install plan: it succeeds with tree
    [m'] exactly when the plan of five copies (man page, bash, zsh and
    fish completions, license), applied in order to the starting tree,
    finds every source and yields [m']. *)
Theorem post_install_refines ctx s m' :
  (exists s', post_install ctx s = Done tt s' /\ fs s' = m') <->
  apply_plan (install_plan ctx) (fs s) = Some m'.
Proof. rewrite (sbctl_post_install_seq ctx s). apply install_seq_Done. Qed.


(** C10: [post_install] stops at the first of its five copies whose
    source is missing from the source tree: it fails reporting that
    path, after the copies before it have been made, each putting its
    source at its destination, and with the events of those copies
    only; no later copy is made. *)
Theorem post_install_first_missing ctx s pre src dest post :
  trees_disjoint ctx ->
  install_plan ctx = pre ++ (src, dest) :: post ->
  (forall k, k ∈ pre.*1 -> is_Some (fs s !! k)) ->
  fs s !! src = None ->
  exists m, post_install ctx s =
      Failed (MissingFile src)
        (mkBState m (trace s ++ ((fun '(a, b) => EvInstall a b) <$> pre))) /\
    (forall a b, (a, b) ∈ pre -> m !! b = fs s !! a) /\
    (forall k, k ∉ pre.*2 -> m !! k = fs s !! k).
Proof.
  intros Htd Hplan Hpre Hsrc.
  have Hin : plan_in_trees ctx (pre ++ (src, dest) :: post)
    by rewrite -Hplan; apply install_plan_in_trees.
  apply Forall_app in Hin as [Hin_pre Hin_rest].
  have Hd := plan_disjoint_trees ctx pre Htd Hin_pre.
  have Hnd : NoDup pre.*2.
  { have H := install_plan_nodup ctx. rewrite Hplan fmap_app NoDup_app in H. tauto. }
  destruct (apply_plan_is_Some pre (fs s) Hd Hpre) as [m Hm].
  have Hother k : k ∉ pre.*2 -> m !! k = fs s !! k
    by intros Hk; exact (apply_plan_lookup_other pre (fs s) m k Hd Hk Hm).
  have Hsrc' : src ∉ pre.*2.
  { intros ([a b] & -> & Hab)%list_elem_of_fmap. simpl in *.
    apply Forall_cons in Hin_rest as [[[a' ->] _] _].
    move: (proj1 (Forall_forall _ _) Hin_pre _ Hab) => /= [_ [b' Hb']].
    exact (Htd a' b' Hb'). }
  exists m. split_and!; [|by intros a b Hab; apply (apply_plan_lookup pre (fs s))|done].
  rewrite (sbctl_post_install_seq ctx s) Hplan.
  by apply install_seq_first_missing; last rewrite Hother.
Qed.

(** ** The two hooks together *)

(** C3: when the trees are disjoint, [gmake man] leaves the man page and
    the license in the source tree and the completion commands succeed,
    [post_build] followed by [post_install] succeeds; the completion the
    host installs for each shell holds the output of the completion
    command for that shell, and the installed man page is the one
    [gmake man] generated. *)
Theorem build_then_install ctx s o m1 out :
  trees_disjoint ctx ->
  run ctx man_cmd (fs s) = mkResult 0 o m1 ->
  (forall sh, sh ∈ shells -> cmd_prints ctx (completion_cmd ctx sh) (out sh)) ->
  is_Some (m1 !! (cwd ctx </> "docs/sbctl.8")) ->
  is_Some (m1 !! (cwd ctx </> "LICENSE")) ->
  exists s', (post_build ctx;; post_install ctx) s = Done tt s' /\
    (forall sh dest, sh ∈ shells -> completion_dest ctx sh = Some dest ->
       fs s' !! dest = Some (out sh)) /\
    fs s' !! man_dest ctx "docs/sbctl.8" = m1 !! (cwd ctx </> "docs/sbctl.8").
Proof.
  intros Htd Hman Hsh Hdoc Hlic.
  have Hs1 := post_build_ok ctx s o m1 out Hman Hsh.
  have Hdoc' := not_completion_file ctx "docs/sbctl.8" ltac:(decide_closed).
  have Hlic' := not_completion_file ctx "LICENSE" ltac:(decide_closed).
  destruct (post_install_after_build ctx (mkBState (built_tree ctx m1 out)
              (trace s ++ post_build_events ctx)) out Htd) as (s' & Hs' & Hc & Hm); simpl.
  - intros sh Hin. by apply built_tree_completion.
  - by rewrite built_tree_other.
  - by rewrite built_tree_other.
  - exists s'. split; [by rewrite (bind_Done _ _ _ tt _ Hs1)|].
    split; [done|]. by rewrite Hm built_tree_other.
Qed.

(** ** Bounds *)


(** ** Properties of the metadata *)


(** C13: the archive the [source] f-string names is
    [<pkgname>-<pkgver>.tar.gz], for every [url] and every version and
    name without a slash. *)
Theorem source_archive_name url ver name :
  has_char "/"%char ver = false -> has_char "/"%char name = false ->
  basename (Meta.source_of url ver name) = name +:+ "-" +:+ ver +:+ ".tar.gz".
Proof.
  intros Hver Hname. rewrite /basename /Meta.source_of.
  have -> : url +:+ "/releases/download/" +:+ ver +:+ "/" +:+ name +:+ "-" +:+ ver
               +:+ ".tar.gz"
             = (url +:+ "/releases/download/" +:+ ver)
               +:+ String "/" (name +:+ "-" +:+ ver +:+ ".tar.gz")
    by autorewrite with cports_rw.
  apply after_last_app. by rewrite !has_char_app Hver Hname.
Qed.

(** ** Witnesses *)

Lemma demo_prints zsh_ok sh :
  sh ∈ shells -> (sh = "zsh" -> zsh_ok = true) ->
  cmd_prints (demo_ctx zsh_ok) (completion_cmd (demo_ctx zsh_ok) sh) (demo_out sh).
Proof.
  intros Hin Hz m. set_unfold in Hin.
  destruct_or! Hin; subst sh; destruct zsh_ok; try reflexivity. by discriminate Hz.
Qed.

Lemma demo_trees_disjoint zsh_ok : trees_disjoint (demo_ctx zsh_ok).
Proof. intros a b. rewrite /path_join /=. discriminate. Qed.

Lemma post_build_writes_completions_witness :
  exists s', post_build (demo_ctx true) demo_state = Done tt s' /\
    (forall sh, sh ∈ shells -> fs s' !! completion_file (demo_ctx true) sh = Some (demo_out sh)) /\
    (forall p, p ∉ completion_file (demo_ctx true) <$> shells -> fs s' !! p = demo_m1 !! p).
Proof.
  apply (post_build_writes_completions (demo_ctx true) demo_state EmptyString demo_m1 demo_out).
  - reflexivity.
  - intros sh Hin. by apply demo_prints.
Defined.


(** The built tree without its completion files: the man page is
    copied, then the bash completion is missing. *)
Lemma post_install_first_missing_witness :
  exists m, post_install (demo_ctx true) (mkBState demo_m1 []) =
      Failed (MissingFile (demo_cwd </> "sbctl.bash"))
        (mkBState m ([] ++ [EvInstall (demo_cwd </> "docs/sbctl.8")
                               ("/destdir/sbctl-0.12" </> "usr/share/man/man8/sbctl.8")])) /\
    (forall a b, (a, b) ∈ [(demo_cwd </> "docs/sbctl.8",
                           "/destdir/sbctl-0.12" </> "usr/share/man/man8/sbctl.8")] ->
       m !! b = demo_m1 !! a) /\
    (forall k, k ∉ ["/destdir/sbctl-0.12" </> "usr/share/man/man8/sbctl.8"] ->
       m !! k = demo_m1 !! k).
Proof.
  apply (post_install_first_missing (demo_ctx true) (mkBState demo_m1 [])
           [(demo_cwd </> "docs/sbctl.8", "/destdir/sbctl-0.12" </> "usr/share/man/man8/sbctl.8")]
           (demo_cwd </> "sbctl.bash") ("/destdir/sbctl-0.12" </> "usr/share/bash-completion/completions/sbctl")
           (drop 2 (install_plan (demo_ctx true)))).
  - apply demo_trees_disjoint.
  - vm_compute. reflexivity.
  - intros k Hk. apply list_elem_of_singleton in Hk. subst k. eexists. vm_compute. reflexivity.
  - vm_compute. reflexivity.
Defined.

Lemma build_then_install_witness :
  exists s', (post_build (demo_ctx true);; post_install (demo_ctx true)) demo_state = Done tt s' /\
    (forall sh dest, sh ∈ shells -> completion_dest (demo_ctx true) sh = Some dest ->
       fs s' !! dest = Some (demo_out sh)) /\
    fs s' !! man_dest (demo_ctx true) "docs/sbctl.8" = demo_m1 !! (demo_cwd </> "docs/sbctl.8").
Proof.
  apply (build_then_install (demo_ctx true) demo_state EmptyString demo_m1 demo_out).
  - apply demo_trees_disjoint.
  - reflexivity.
  - intros sh Hin. by apply demo_prints.
  - vm_compute. by eexists.
  - vm_compute. by eexists.
Defined.

Lemma source_archive_name_witness :
  basename Meta.source = "sbctl-0.12.tar.gz".
Proof. apply source_archive_name; reflexivity. Defined.
