(* ===== verification/Neovim.v ===== *)
(** * [src/contrib/neovim/template.py]: the editor

    [Meta] holds the module-level assignments (lines 2-37).  The
    [match self.profile().arch] of lines 40-49 is [arch_delta], a
    function from the target architecture to the entries the [+=]
    statements append to [configure_args], [hostmakedepends] and
    [makedepends]; [template arch] is the module as the host sees it
    after the match ran for [arch].  [post_install] (lines 52-53)
    installs the license.  The theorems show that each architecture
    selects exactly one Lua implementation, that the base lists are kept,
    that the template is valid for every architecture, and what
    [post_install] installs. *)

From S2P Require Import Prelude Host Template.

Module Neovim.

(** ** Metadata, lines 2-37 *)

Module Meta.
Definition pkgname : string := "neovim".
Definition pkgver : string := "0.9.5".
Definition pkgrel : nat := 2.
Definition build_style : string := "cmake".
Definition configure_args : list string := ["-DCMAKE_BUILD_TYPE=RelWithDebInfo"].
Definition hostmakedepends : list string :=
  ["cmake"; "ninja"; "pkgconf"; "gperf"; "gettext"; "lua5.1-bitop"; "lua5.1-lpeg";
   "lua5.1-libluv"; "lua5.1-mpack"].
Definition makedepends : list string :=
  ["unibilium-devel"; "libtermkey-devel"; "libvterm-devel"; "libuv-devel";
   "lua5.1-libluv-devel"; "msgpack-c-devel"; "tree-sitter-devel"].
Definition pkgdesc : string :=
  "Fork of Vim aiming to improve user experience, plugins and GUIs".
Definition maintainer : string := "yopito <pierre.bourgin@free.fr>".
Definition license : string := "Apache-2.0 AND custom:Vim".
Definition url : string := "https://neovim.io".
(** [f"https://github.com/neovim/neovim/archive/v{pkgver}.tar.gz"] *)
Definition source_of (pkgver : string) : string :=
  "https://github.com/neovim/neovim/archive/v" +:+ pkgver +:+ ".tar.gz".
Definition source : string := source_of pkgver.
Definition sha256 : string :=
  "fe74369fc30a32ec7a086b1013acd0eacd674e7570eb1acc520a66180c9e9719".
Definition options : list string := ["!check"].
End Meta.

(** ** The architecture branch, lines 40-49 *)

(** What one arm of the [match] appends to the three lists. *)
Record ArchDelta := mkDelta {
  configure_args_add : list string;
  hostmakedepends_add : list string;
  makedepends_add : list string
}.

(** [case "aarch64" | "ppc64le" | "x86_64"]. *)
Definition luajit_arch (arch : string) : bool :=
  bool_decide (arch = "aarch64") || bool_decide (arch = "ppc64le")
  || bool_decide (arch = "x86_64").

Definition arch_delta (arch : string) : ArchDelta :=
  if luajit_arch arch then
    mkDelta ["-DPREFER_LUA=OFF"] ["luajit"] ["luajit-devel"]
  else
    mkDelta ["-DPREFER_LUA=ON"] ["lua5.1"] ["lua5.1-devel"].

(** ** Hooks, lines 52-53 *)

Definition post_install (ctx : Ctx) : M unit :=
  install_license ctx "LICENSE.txt".

(** The module after the [match] ran for [arch]: each [+=] appends to
    the list the module assigned before. *)
Definition template (arch : string) : Template :=
  let d := arch_delta arch in {|
  pkgname := Meta.pkgname;
  pkgver := Meta.pkgver;
  pkgrel := Meta.pkgrel;
  build_style := Meta.build_style;
  configure_args := Meta.configure_args ++ configure_args_add d;
  make_build_args := [];
  hostmakedepends := Meta.hostmakedepends ++ hostmakedepends_add d;
  makedepends := Meta.makedepends ++ makedepends_add d;
  depends := [];
  pkgdesc := Meta.pkgdesc;
  maintainer := Meta.maintainer;
  license := Meta.license;
  url := Meta.url;
  source := Meta.source;
  sha256 := Meta.sha256;
  options := Meta.options;
  hook_post_build := None;
  hook_post_install := Some post_install
|}.

(** What [post_install] promises: one copy. *)
Definition install_plan (ctx : Ctx) : Plan :=
  [(cwd ctx </> "LICENSE.txt",
    destdir ctx </> ("usr/share/licenses/" +:+ ctx_pkgname ctx +:+ "/LICENSE.txt"))].

(** The architectures the first arm names. *)
Definition luajit_arches : list string := ["aarch64"; "ppc64le"; "x86_64"].

End Neovim.
Export Neovim.

(** ** Lemmas *)

Lemma luajit_arch_spec arch : luajit_arch arch = true <-> arch ∈ luajit_arches.
Proof.
  rewrite /luajit_arch /luajit_arches !orb_true_iff !bool_decide_eq_true.
  set_unfold. naive_solver.
Qed.

Lemma template_luajit arch :
  luajit_arch arch = true -> template arch = template "x86_64".
Proof. intros H. by rewrite /template /arch_delta H. Qed.

Lemma template_lua51 arch :
  luajit_arch arch = false -> template arch = template "riscv64".
Proof. intros H. by rewrite /template /arch_delta H. Qed.

Lemma neovim_post_install_seq ctx : post_install ctx ≡ install_seq (install_plan ctx).
Proof.
  rewrite /post_install /install_license /license_dest /install_plan /=.
  change (basename "LICENSE.txt") with "LICENSE.txt".
  rewrite bind_ret_r_equiv. f_equiv. path_eq.
Qed.

(** The host's check accepts the template on every architecture. *)
Lemma neovim_validates arch : validate (template arch) = inr (template arch).
Proof.
  destruct (luajit_arch arch) eqn:H;
    [rewrite (template_luajit arch H) | rewrite (template_lua51 arch H)];
    vm_compute; reflexivity.
Qed.

(** The spec's scenario: x86_64 builds against LuaJIT, riscv64 against
    Lua 5.1. *)
Example scenario_x86_64_riscv64 :
  "-DPREFER_LUA=OFF" ∈ configure_args (template "x86_64") /\
  "luajit" ∈ hostmakedepends (template "x86_64") /\
  "-DPREFER_LUA=ON" ∈ configure_args (template "riscv64") /\
  "lua5.1" ∈ hostmakedepends (template "riscv64").
Proof. split_and!; decide_closed. Qed.

(** ** Properties *)

(** C4: for every target architecture exactly one Lua implementation
    is selected, consistently in all three lists: on aarch64, ppc64le and
    x86_64 the configure flag [-DPREFER_LUA=OFF], the host dependency
    [luajit] and the build dependency [luajit-devel]; on every other
    architecture [-DPREFER_LUA=ON], [lua5.1] and [lua5.1-devel]. *)
Theorem lua_flavour_exclusive arch :
  ("-DPREFER_LUA=OFF" ∈ configure_args (template arch) <-> arch ∈ ["aarch64"; "ppc64le"; "x86_64"]) /\
  ("-DPREFER_LUA=ON" ∈ configure_args (template arch) <-> arch ∉ ["aarch64"; "ppc64le"; "x86_64"]) /\
  ("luajit" ∈ hostmakedepends (template arch) <-> arch ∈ ["aarch64"; "ppc64le"; "x86_64"]) /\
  ("lua5.1" ∈ hostmakedepends (template arch) <-> arch ∉ ["aarch64"; "ppc64le"; "x86_64"]) /\
  ("luajit-devel" ∈ makedepends (template arch) <-> arch ∈ ["aarch64"; "ppc64le"; "x86_64"]) /\
  ("lua5.1-devel" ∈ makedepends (template arch) <-> arch ∉ ["aarch64"; "ppc64le"; "x86_64"]).
Proof.
  have Hspec := luajit_arch_spec arch. rewrite /luajit_arches in Hspec.
  destruct (luajit_arch arch) eqn:H;
    [rewrite (template_luajit arch H) | rewrite (template_lua51 arch H)];
    split_and!; split; intros Hx;
    try decide_closed; try (exfalso; revert Hx; decide_closed); naive_solver.
Qed.


(** C8: the [neovim] template is well formed for every target
    architecture: the entries the [match] appends never duplicate a
    dependency, and the checksum and the other fields pass the host's
    check. *)
Theorem neovim_template_wf arch : wf (template arch).
Proof. apply validate_correct, neovim_validates. Qed.

(** C11: [post_install] copies [LICENSE.txt] of the source tree to
    [usr/share/licenses/<pkgname>/LICENSE.txt] in the package tree, and
    fails reporting the path when the license is missing. *)
Theorem post_install_license ctx s :
  post_install ctx s =
    match fs s !! (cwd ctx </> "LICENSE.txt") with
    | Some c =>
        Done tt (commit (<[destdir ctx </> ("usr/share/licenses/" +:+ ctx_pkgname ctx
                           +:+ "/LICENSE.txt") := c]> (fs s))
                   (EvInstall (cwd ctx </> "LICENSE.txt")
                      (destdir ctx </> ("usr/share/licenses/" +:+ ctx_pkgname ctx
                                        +:+ "/LICENSE.txt"))) s)
    | None => Failed (MissingFile (cwd ctx </> "LICENSE.txt")) s
    end.
Proof. rewrite (neovim_post_install_seq ctx s) /= bind_ret_r. done. Qed.
