(* ===== verification/Pipeline.v ===== *)
(** * The host pipeline that calls a template's hooks

    Modelled from the spec (sections 2, 4.2, 5 and 7): cbuild is not
    part of the repository.  A build goes through the phases validate,
    fetch, build, post_build, install, post_install and package, strictly
    in order; every failure aborts the build and is final.  Schema
    validation is [Template.validate]; the fetch compares the digest of
    the downloaded archive with the template's [sha256]; the build and
    install steps of the build style are host strategies, given as
    parameters; the hooks are the template's.  The pipeline is both an
    executable function [step_fn] with a fuelled driver [drive] and an
    inductive step relation [step]; the two are proved to agree, the
    pipeline terminates within seven steps, and the invariants are
    proved by induction on the steps. *)

From S2P Require Import Prelude Host Template.

(** ** Phases and states *)

Inductive PipelineError :=
| PInvalid (e : ValidationError)
| PChecksum (expected got : string)
| PHookFailed (e : BuildError).

Inductive Phase :=
| PValidate | PFetch | PBuild | PPostBuild | PInstall | PPostInstall | PPackage
| PDone
| PAborted (e : PipelineError).

Record PState := mkPState { phase : Phase; pst : BState }.

Section Pipeline.
Context (t : Template) (ctx : Ctx) (digest : string).
Context (build_step install_step : M unit).

(** A hook the template may leave undefined: the host then does nothing. *)
Definition hook_or_skip (h : option (Ctx -> M unit)) : M unit :=
  match h with Some f => f ctx | None => mret tt end.

(** The host computation a phase runs, and the phase that follows it. *)
Definition phase_action (ph : Phase) : option (M unit * Phase) :=
  match ph with
  | PBuild => Some (build_step, PPostBuild)
  | PPostBuild => Some (hook_or_skip (hook_post_build t), PInstall)
  | PInstall => Some (install_step, PPostInstall)
  | PPostInstall => Some (hook_or_skip (hook_post_install t), PPackage)
  | _ => None
  end.

Definition run_phase (m : M unit) (next : Phase) (s : BState) : PState :=
  match m s with
  | Done _ s' => mkPState next s'
  | Failed e s' => mkPState (PAborted (PHookFailed e)) s'
  end.

(** One step of the host, [None] in a final phase. *)
Definition step_fn (p : PState) : option PState :=
  let s := pst p in
  match phase p with
  | PValidate =>
      Some (match validate t with
            | inl e => mkPState (PAborted (PInvalid e)) s
            | inr _ => mkPState PFetch s
            end)
  | PFetch =>
      Some (if decide (digest = sha256 t) then mkPState PBuild s
            else mkPState (PAborted (PChecksum (sha256 t) digest)) s)
  | PPackage => Some (mkPState PDone s)
  | PDone | PAborted _ => None
  | ph => (fun '(m, next) => run_phase m next s) <$> phase_action ph
  end.

Inductive step : PState -> PState -> Prop :=
| step_valid s t' :
    validate t = inr t' -> step (mkPState PValidate s) (mkPState PFetch s)
| step_invalid s e :
    validate t = inl e -> step (mkPState PValidate s) (mkPState (PAborted (PInvalid e)) s)
| step_fetch_ok s :
    digest = sha256 t -> step (mkPState PFetch s) (mkPState PBuild s)
| step_fetch_bad s :
    digest <> sha256 t ->
    step (mkPState PFetch s) (mkPState (PAborted (PChecksum (sha256 t) digest)) s)
| step_run ph m next s :
    phase_action ph = Some (m, next) -> step (mkPState ph s) (run_phase m next s)
| step_package s : step (mkPState PPackage s) (mkPState PDone s).

(** The driver: at most [n] steps. *)
Fixpoint drive (n : nat) (p : PState) : PState :=
  match n with
  | 0 => p
  | S n => match step_fn p with Some q => drive n q | None => p end
  end.

Definition start (s : BState) : PState := mkPState PValidate s.

(** Steps left before a final phase, at most. *)
Definition rank (ph : Phase) : nat :=
  match ph with
  | PValidate => 7 | PFetch => 6 | PBuild => 5 | PPostBuild => 4 | PInstall => 3
  | PPostInstall => 2 | PPackage => 1 | PDone | PAborted _ => 0
  end.

(** The phases that come after [post_build]. *)
Definition late (ph : Phase) : bool :=
  match ph with PInstall | PPostInstall | PPackage | PDone => true | _ => false end.

(** [m] only appends to the trace. *)
Definition appends (m : M unit) : Prop :=
  forall s, trace s `prefix_of` trace (outcome_state (m s)).

(** ** The relation and the function agree *)

Lemma step_fn_spec p q : step p q <-> step_fn p = Some q.
Proof.
  split.
  - destruct 1 as [s t' H|s e H|s H|s H|ph m next s H|s]; cbn [step_fn phase pst].
    + by rewrite H.
    + by rewrite H.
    + by rewrite decide_True.
    + by rewrite decide_False.
    + destruct ph; simplify_eq/=; done.
    + done.
  - destruct p as [ph s]. destruct ph; cbn [step_fn phase pst]; intros Hq; simplify_eq.
    + destruct (validate t) eqn:H; [by apply step_invalid|by eapply step_valid].
    + case_decide; [by apply step_fetch_ok|by apply step_fetch_bad].
    + simpl in Hq; simplify_eq. by apply step_run.
    + simpl in Hq; simplify_eq. by apply step_run.
    + simpl in Hq; simplify_eq. by apply step_run.
    + simpl in Hq; simplify_eq. by apply step_run.
    + apply step_package.
Qed.

Lemma step_fn_run ph m next s :
  phase_action ph = Some (m, next) -> step_fn (mkPState ph s) = Some (run_phase m next s).
Proof. intros H. destruct ph; simplify_eq/=; done. Qed.

Lemma step_det p q1 q2 : step p q1 -> step p q2 -> q1 = q2.
Proof. rewrite !step_fn_spec. congruence. Qed.

Lemma step_rank p q : step p q -> rank (phase q) < rank (phase p).
Proof.
  destruct 1 as [| | | |ph m next s H|]; simpl; try lia.
  rewrite /run_phase. destruct ph; simplify_eq/=; case_match; simpl; lia.
Qed.

Lemma step_fn_None p : step_fn p = None <-> rank (phase p) = 0.
Proof. destruct p as [[] s]; simpl; split; done. Qed.

(** ** The driver *)

Lemma drive_rtc n p : rtc step p (drive n p).
Proof.
  revert p. induction n as [|n IH]; intros p; simpl; [done|].
  destruct (step_fn p) as [q|] eqn:Hq; [|done].
  eapply rtc_l; [by apply step_fn_spec|apply IH].
Qed.

(** The pipeline terminates: [rank] steps reach a final phase. *)
Lemma drive_final n p : rank (phase p) <= n -> step_fn (drive n p) = None.
Proof.
  revert p. induction n as [|n IH]; intros p Hn; simpl.
  - apply step_fn_None. lia.
  - destruct (step_fn p) as [q|] eqn:Hq; [|done].
    apply IH. apply step_fn_spec, step_rank in Hq. lia.
Qed.

Lemma drive_step n p q : step p q -> drive (S n) p = drive n q.
Proof. intros H. simpl. by rewrite (proj1 (step_fn_spec p q) H). Qed.

(** Every final state reachable from [p] is the one [drive] computes. *)
Lemma final_unique p q :
  rtc step p q -> step_fn q = None -> q = drive (rank (phase p)) p.
Proof.
  induction 1 as [p|p p' q Hst Hrtc IH]; intros Hfin.
  - apply step_fn_None in Hfin. by rewrite Hfin.
  - have Hr := step_rank _ _ Hst.
    destruct (rank (phase p)) as [|r] eqn:Hp; [lia|].
    rewrite (drive_step r p p') // (IH Hfin).
    enough (forall n m x, rank (phase x) <= n -> rank (phase x) <= m -> drive n x = drive m x)
      as Hrun by (apply Hrun; lia).
    clear. induction n as [|n IHn]; intros [|m] x Hn Hm; simpl.
    + done.
    + by rewrite (proj2 (step_fn_None x) ltac:(lia)).
    + by rewrite (proj2 (step_fn_None x) ltac:(lia)).
    + destruct (step_fn x) as [y|] eqn:Hy; [|done].
      apply step_fn_spec, step_rank in Hy. apply IHn; lia.
Qed.

(** From a state with one successor, a reachable state is the state
    itself or reachable from the successor. *)
Lemma rtc_step_fn p p1 q :
  step_fn p = Some p1 -> rtc step p q -> q = p \/ rtc step p1 q.
Proof.
  intros Hp Hq. inversion Hq as [|? p' ? Hs Hr]; subst; [by left|right].
  apply step_fn_spec in Hs. congruence.
Qed.

Lemma rtc_final p q : step_fn p = None -> rtc step p q -> q = p.
Proof.
  intros Hp Hq. inversion Hq as [|? p' ? Hs]; subst; [done|].
  apply step_fn_spec in Hs. congruence.
Qed.

(** ** Traces only grow *)

Section Appending.
Hypothesis build_appends : appends build_step.
Hypothesis install_appends : appends install_step.
Hypothesis post_build_appends : appends (hook_or_skip (hook_post_build t)).
Hypothesis post_install_appends : appends (hook_or_skip (hook_post_install t)).

Lemma run_phase_prefix m next s :
  appends m -> trace s `prefix_of` trace (pst (run_phase m next s)).
Proof. intros Hm. rewrite /run_phase. specialize (Hm s). by destruct (m s). Qed.

Lemma step_prefix p q : step p q -> trace (pst p) `prefix_of` trace (pst q).
Proof.
  destruct 1 as [| | | |ph m next s H|]; try done.
  apply run_phase_prefix. destruct ph; simplify_eq/=; done.
Qed.

Lemma rtc_prefix p q : rtc step p q -> trace (pst p) `prefix_of` trace (pst q).
Proof.
  induction 1 as [|p p' q Hst _ IH]; [done|].
  etrans; [apply step_prefix, Hst|exact IH].
Qed.
End Appending.

(** ** Progress *)

(** No state is stuck: a state is final or has a successor. *)
Lemma no_deadlock p : step_fn p = None \/ exists q, step p q.
Proof.
  destruct (step_fn p) as [q|] eqn:H; [right; exists q; by apply step_fn_spec|by left].
Qed.

(** From every state a final state is reached, the one [drive]
    computes in [rank] steps. *)
Lemma leads_to_final p :
  exists f, rtc step p f /\ step_fn f = None /\ f = drive (rank (phase p)) p.
Proof. exists (drive (rank (phase p)) p). split_and!; [apply drive_rtc|apply drive_final; lia|done]. Qed.

End Pipeline.

Lemma drive_S t ctx digest b i n p q :
  step_fn t ctx digest b i p = Some q -> drive t ctx digest b i (S n) p = drive t ctx digest b i n q.
Proof. intros H. simpl. by rewrite H. Qed.

(** Only the [post_build] phase leads into the phases after it. *)
Lemma step_into_late t ctx digest b i p q :
  step t ctx digest b i p q -> late (phase q) = true ->
  late (phase p) = true \/ phase p = PPostBuild.
Proof.
  destruct 1 as [| | | |ph m next s H|]; simpl; try done; [|by left].
  rewrite /run_phase. destruct ph; simplify_eq/=; case_match; simpl; auto.
Qed.

(** ** Runs of the pipeline, phase by phase *)

Section Runs.
Context (t : Template) (ctx : Ctx) (digest : string) (b i : M unit).

Lemma step_fn_validate s :
  validate t = inr t -> step_fn t ctx digest b i (start s) = Some (mkPState PFetch s).
Proof. intros Hv. cbn [step_fn phase pst start]. by rewrite Hv. Qed.

Lemma step_fn_fetch s :
  digest = sha256 t -> step_fn t ctx digest b i (mkPState PFetch s) = Some (mkPState PBuild s).
Proof. intros Hd. cbn [step_fn phase pst]. by rewrite decide_True. Qed.

(** The four phases that run a computation, each with its outcome. *)
Lemma step_fn_phase ph m next s :
  phase_action t ctx b i ph = Some (m, next) ->
  step_fn t ctx digest b i (mkPState ph s) =
    Some (match m s with
          | Done _ s' => mkPState next s'
          | Failed e s' => mkPState (PAborted (PHookFailed e)) s'
          end).
Proof. intros H. by rewrite (step_fn_run _ _ _ _ _ ph m next s H). Qed.

(** A run in which every phase succeeds ends done, in the state
    [post_install] left. *)
Lemma drive_success s sb s1 si s2 :
  validate t = inr t -> digest = sha256 t -> b s = Done tt sb ->
  hook_or_skip ctx (hook_post_build t) sb = Done tt s1 -> i s1 = Done tt si ->
  hook_or_skip ctx (hook_post_install t) si = Done tt s2 ->
  drive t ctx digest b i 7 (start s) = mkPState PDone s2.
Proof.
  intros Hv Hd Hb H1 Hi H2.
  rewrite (drive_S _ _ _ _ _ _ _ _ (step_fn_validate s Hv)).
  rewrite (drive_S _ _ _ _ _ _ _ _ (step_fn_fetch s Hd)).
  rewrite (drive_S _ _ _ _ _ _ _ _ (step_fn_phase PBuild b PPostBuild s eq_refl)) Hb.
  rewrite (drive_S _ _ _ _ _ _ _ _ (step_fn_phase PPostBuild _ PInstall sb eq_refl)) H1.
  rewrite (drive_S _ _ _ _ _ _ _ _ (step_fn_phase PInstall i PPostInstall s1 eq_refl)) Hi.
  rewrite (drive_S _ _ _ _ _ _ _ _ (step_fn_phase PPostInstall _ PPackage si eq_refl)) H2.
  done.
Qed.

(** A failing [post_build] after a successful build: the run aborts
    with its error, and no reachable state is in the install phase or
    after it. *)
Lemma drive_post_build_fails s sb e sf :
  validate t = inr t -> digest = sha256 t -> b s = Done tt sb ->
  hook_or_skip ctx (hook_post_build t) sb = Failed e sf ->
  drive t ctx digest b i 7 (start s) = mkPState (PAborted (PHookFailed e)) sf /\
  forall q, rtc (step t ctx digest b i) (start s) q -> late (phase q) = false.
Proof.
  intros Hv Hd Hb Hpb.
  have H1 := step_fn_validate s Hv. have H2 := step_fn_fetch s Hd.
  have H3 := step_fn_phase PBuild b PPostBuild s eq_refl. rewrite Hb in H3.
  have H4 := step_fn_phase PPostBuild _ PInstall sb eq_refl. rewrite Hpb in H4.
  split.
  - by rewrite (drive_S _ _ _ _ _ _ _ _ H1) (drive_S _ _ _ _ _ _ _ _ H2)
               (drive_S _ _ _ _ _ _ _ _ H3) (drive_S _ _ _ _ _ _ _ _ H4).
  - intros q Hq.
    destruct (rtc_step_fn _ _ _ _ _ _ _ _ H1 Hq) as [->|Hq1]; [done|].
    destruct (rtc_step_fn _ _ _ _ _ _ _ _ H2 Hq1) as [->|Hq2]; [done|].
    destruct (rtc_step_fn _ _ _ _ _ _ _ _ H3 Hq2) as [->|Hq3]; [done|].
    destruct (rtc_step_fn _ _ _ _ _ _ _ _ H4 Hq3) as [->|Hq4]; [done|].
    apply rtc_final in Hq4; [by subst|done].
Qed.
(** A failing [post_install] after successful earlier phases: the run
    aborts with its error in the state it left; nothing is packaged. *)
Lemma drive_post_install_fails s sb s1 si e sf :
  validate t = inr t -> digest = sha256 t -> b s = Done tt sb ->
  hook_or_skip ctx (hook_post_build t) sb = Done tt s1 -> i s1 = Done tt si ->
  hook_or_skip ctx (hook_post_install t) si = Failed e sf ->
  drive t ctx digest b i 7 (start s) = mkPState (PAborted (PHookFailed e)) sf.
Proof.
  intros Hv Hd Hb H1 Hi H2.
  rewrite (drive_S _ _ _ _ _ _ _ _ (step_fn_validate s Hv)).
  rewrite (drive_S _ _ _ _ _ _ _ _ (step_fn_fetch s Hd)).
  rewrite (drive_S _ _ _ _ _ _ _ _ (step_fn_phase PBuild b PPostBuild s eq_refl)) Hb.
  rewrite (drive_S _ _ _ _ _ _ _ _ (step_fn_phase PPostBuild _ PInstall sb eq_refl)) H1.
  rewrite (drive_S _ _ _ _ _ _ _ _ (step_fn_phase PInstall i PPostInstall s1 eq_refl)) Hi.
  rewrite (drive_S _ _ _ _ _ _ _ _ (step_fn_phase PPostInstall _ PPackage si eq_refl)) H2.
  done.
Qed.
End Runs.

(** ** What the pipeline needs from a template's hooks

    The contract between the host and a template: each hook emits a
    fixed sequence of events, all of them when it succeeds and a prefix
    of them when it fails.  The theorems below are proved against this
    contract alone; [SbctlPipeline] and [NeovimPipeline] discharge it
    for the two templates. *)
Class HookSpec (t : Template) := {
  post_build_spec_events : Ctx -> list Event;
  post_build_spec_emits ctx :
    emits (hook_or_skip ctx (hook_post_build t)) (post_build_spec_events ctx);
  post_install_spec_events : Ctx -> list Event;
  post_install_spec_emits ctx :
    emits (hook_or_skip ctx (hook_post_install t)) (post_install_spec_events ctx)
}.

(** The phases of a build that has passed [post_install]. *)
Definition finished (ph : Phase) : bool :=
  match ph with PPackage | PDone => true | _ => false end.

Section Contract.
Context (t : Template) `{!HookSpec t} (ctx : Ctx) (digest : string) (b i : M unit).
Hypothesis build_appends : appends b.
Hypothesis install_appends : appends i.

Lemma hook_spec_appends :
  appends (hook_or_skip ctx (hook_post_build t)) /\
  appends (hook_or_skip ctx (hook_post_install t)).
Proof.
  split; intros s; eapply emits_prefix; [apply post_build_spec_emits|apply post_install_spec_emits].
Qed.

(** Every state in the install phase or after it holds the whole event
    sequence of [post_build] as one block. *)
Lemma post_build_before_late s q :
  rtc (step t ctx digest b i) (start s) q -> late (phase q) = true ->
  segment (post_build_spec_events ctx) (trace (pst q)).
Proof.
  destruct hook_spec_appends as [Hpb Hpi]. revert q.
  apply (rtc_ind_r (fun q => late (phase q) = true ->
                       segment (post_build_spec_events ctx) (trace (pst q)))); [done|].
  intros y z Hyr Hyz IH Hz.
  destruct (step_into_late _ _ _ _ _ _ _ Hyz Hz) as [Hy|Hy].
  - eapply segment_prefix; [by apply IH|].
    exact (step_prefix _ _ _ _ _ build_appends install_appends Hpb Hpi _ _ Hyz).
  - destruct y as [ph sy]; simpl in Hy; subst ph.
    inversion Hyz as [| | | |ph m next s' Hact Hph Hq|]; subst. simpl in Hact. simplify_eq.
    move: Hz. rewrite /run_phase /=.
    destruct (post_build_spec_emits ctx sy) as (evs & Htr & _ & Hdone).
    destruct (hook_or_skip ctx (hook_post_build t) sy) as [[] s2|e s2] eqn:Hpost; [|done].
    intros _. simpl in *. rewrite Htr (Hdone tt s2) //. apply segment_app_l.
Qed.

(** Every build that has passed [post_install] holds the events of
    [post_build], and after them those of [post_install]. *)
Lemma hooks_in_order s q :
  rtc (step t ctx digest b i) (start s) q -> finished (phase q) = true ->
  exists k1 k2, trace (pst q) =
    k1 ++ post_build_spec_events ctx ++ k2 ++ post_install_spec_events ctx.
Proof.
  revert q. apply (rtc_ind_r (fun q => finished (phase q) = true -> exists k1 k2,
    trace (pst q) = k1 ++ post_build_spec_events ctx ++ k2 ++ post_install_spec_events ctx));
    [done|].
  intros y z Hyr Hyz IH Hz.
  inversion Hyz as [| | | |ph m next sy Hact Hph Hq|sy Hph Hq]; subst; simpl in Hz; try done.
  - destruct ph; simplify_eq/=; move: Hz; rewrite /run_phase; try by case_match.
    destruct (post_install_spec_emits ctx sy) as (evs & Htr & _ & Hdone).
    destruct (hook_or_skip ctx (hook_post_install t) sy) as [[] s2|e s2] eqn:Hpost; [|done].
    intros _. simpl. rewrite Htr (Hdone tt s2) //.
    destruct (post_build_before_late s (mkPState PPostInstall sy) Hyr eq_refl) as (k1 & k2 & Hk).
    exists k1, k2. rewrite /= in Hk. by rewrite Hk -!app_assoc.
  - by apply IH.
Qed.
End Contract.
