(* ===== verification/SbctlPipeline.v ===== *)
(** * [sbctl] built by the host pipeline

    The pipeline of [Pipeline] run on [Sbctl.template]: the order of the
    hooks' effects in every run (the completion files and the man page
    are all generated before [post_install] runs), a checksum mismatch,
    a failing [post_build], termination, and a complete build with a
    demo host whose Go build style leaves the binary in [build/sbctl]. *)

From S2P Require Import Prelude Host Template Sbctl Pipeline.

(** ** A concrete build of [sbctl], for the witnesses *)

(** The Go build style of the demo host: [go build] leaves the binary
    in [build/sbctl]; the install strategy copies it to [usr/bin]. *)
Definition demo_go_build : Cmd := mkCmd "go" ["build"; "-o"; "build/sbctl"].
Definition demo_build : M unit := do_ (demo_ctx true) demo_go_build None.
Definition demo_install : M unit :=
  install_file (demo_cwd </> "build/sbctl") ("/destdir/sbctl-0.12" </> "usr/bin/sbctl").

Definition demo_sb : BState := outcome_state (demo_build demo_state).
Definition demo_sb_m1 : gmap string string :=
  <[demo_cwd </> "docs/sbctl.8" := ".TH SBCTL 8"]> (fs demo_sb).

(** ** The [sbctl] template in the pipeline *)

(** [sbctl]'s hooks meet the host's contract: [post_build] emits
    [post_build_events], [post_install] the copies of [install_plan]. *)
#[export] Instance sbctl_hook_spec : HookSpec Sbctl.template := {
  post_build_spec_events := post_build_events;
  post_build_spec_emits := post_build_emits;
  post_install_spec_events ctx := (fun '(src, dest) => EvInstall src dest) <$> install_plan ctx;
  post_install_spec_emits := post_install_emits
}.

Section SbctlPipeline.
Context (ctx : Ctx) (digest : string) (build_step install_step : M unit).

(** C6: in every run of the host pipeline on the [sbctl] template whose
    build and install strategies only append to the trace, a state in
    the install phase or after it has the complete event sequence of
    [post_build] in its trace: the completion files and the man page
    are all generated before [post_install] runs. *)
Theorem sbctl_post_build_before_install s q :
  appends build_step -> appends install_step ->
  rtc (step Sbctl.template ctx digest build_step install_step) (start s) q ->
  late (phase q) = true ->
  segment (post_build_events ctx) (trace (pst q)).
Proof.
  intros Hb Hi Hq Hl. exact (post_build_before_late Sbctl.template ctx digest _ _ Hb Hi s q Hq Hl).
Qed.
Lemma sbctl_validates : validate Sbctl.template = inr Sbctl.template.
Proof. vm_compute. reflexivity. Qed.

(** C18: when [post_build] fails in the host pipeline on [sbctl] (the
    checksum matched and the build strategy succeeded), the build ends
    aborted with the hook's error in the state the hook left, and no
    state the pipeline reaches is in the install phase or after it:
    neither the install strategy nor [post_install] runs. *)
Theorem sbctl_post_build_failure_aborts s sb e sf :
  digest = Sbctl.Meta.sha256 ->
  build_step s = Done tt sb ->
  post_build ctx sb = Failed e sf ->
  drive Sbctl.template ctx digest build_step install_step 7 (start s) =
    mkPState (PAborted (PHookFailed e)) sf /\
  forall q, rtc (step Sbctl.template ctx digest build_step install_step) (start s) q ->
    late (phase q) = false.
Proof.
  intros Hd Hb Hpb. exact (drive_post_build_fails _ _ _ _ _ s sb e sf sbctl_validates Hd Hb Hpb).
Qed.

(** C14: when the digest of the fetched archive differs from [sbctl]'s
    [sha256], the host aborts with a checksum error and nothing else
    happens: no command runs and the tree and the trace are those of the
    start. *)
Theorem sbctl_checksum_mismatch s :
  digest <> Sbctl.Meta.sha256 ->
  drive Sbctl.template ctx digest build_step install_step 7 (start s) =
    mkPState (PAborted (PChecksum Sbctl.Meta.sha256 digest)) s.
Proof.
  intros Hd. cbn [drive step_fn phase pst start]. rewrite sbctl_validates.
  cbn [drive step_fn phase pst].
  by rewrite decide_False.
Qed.

(** C16: a complete build of [sbctl].  When the fetched archive has the
    expected checksum, the build strategy succeeds, [gmake man] and the
    completion commands behave, and the install strategy succeeds on
    the state [post_build] leaves without touching the source tree, the
    host pipeline finishes, and
    the package tree holds, for each shell, the output of that shell's
    completion command at the shell's completion path. *)
Theorem sbctl_pipeline_installs s sb o m1 out :
  digest = Sbctl.Meta.sha256 -> trees_disjoint ctx ->
  build_step s = Done tt sb ->
  run ctx man_cmd (fs sb) = mkResult 0 o m1 ->
  (forall sh, sh ∈ shells -> cmd_prints ctx (completion_cmd ctx sh) (out sh)) ->
  is_Some (m1 !! (cwd ctx </> "docs/sbctl.8")) -> is_Some (m1 !! (cwd ctx </> "LICENSE")) ->
  (forall s1, post_build ctx sb = Done tt s1 ->
     exists s2, install_step s1 = Done tt s2 /\
       forall a, fs s2 !! (cwd ctx </> a) = fs s1 !! (cwd ctx </> a)) ->
  exists s', drive Sbctl.template ctx digest build_step install_step 7 (start s)
               = mkPState PDone s' /\
    forall sh dest, sh ∈ shells -> completion_dest ctx sh = Some dest ->
      fs s' !! dest = Some (out sh).
Proof.
  intros Hd Htd Hb Hman Hsh Hdoc Hlic Hinst.
  set (sp := mkBState (built_tree ctx m1 out) (trace sb ++ post_build_events ctx)).
  have Hpb := post_build_ok ctx sb o m1 out Hman Hsh.
  destruct (Hinst sp Hpb) as (si & Hsi & Hkeep).
  destruct (post_install_after_build ctx si out Htd) as (s' & Hs' & Hc & _).
  { intros sh Hin. rewrite /completion_file Hkeep. by apply built_tree_completion. }
  { rewrite Hkeep /= built_tree_other //. apply not_completion_file. decide_closed. }
  { rewrite Hkeep /= built_tree_other //. apply not_completion_file. decide_closed. }
  exists s'. split; [|done].
  exact (drive_success _ _ _ _ _ s sb sp si s' sbctl_validates Hd Hb Hpb Hsi Hs').
Qed.
(** C24: in every run of the host pipeline on [sbctl] whose build and
    install strategies only append to the trace, a build that has passed
    [post_install] has in its trace the whole event sequence of
    [post_build] and, after it, the five install events of
    [post_install]: the man page and the completion files are generated
    before the first of them is installed. *)
Theorem sbctl_hooks_in_order s q :
  appends build_step -> appends install_step ->
  rtc (step Sbctl.template ctx digest build_step install_step) (start s) q ->
  finished (phase q) = true ->
  exists k1 k2, trace (pst q) =
    k1 ++ post_build_events ctx ++ k2 ++
    ((fun '(src, dest) => EvInstall src dest) <$> install_plan ctx).
Proof.
  intros Hb Hi Hq Hf. exact (hooks_in_order Sbctl.template ctx digest _ _ Hb Hi s q Hq Hf).
Qed.


End SbctlPipeline.

(** ** Witnesses *)

Lemma demo_build_appends : appends demo_build.
Proof. intros s. eapply emits_prefix, emits_do. Qed.

Lemma demo_install_appends : appends demo_install.
Proof. intros s. eapply emits_prefix, emits_install_file. Qed.

Lemma sbctl_post_build_before_install_witness :
  late (phase (drive Sbctl.template (demo_ctx true) Sbctl.Meta.sha256 demo_build demo_install
                 7 (start demo_state))) = true /\
  segment (post_build_events (demo_ctx true))
    (trace (pst (drive Sbctl.template (demo_ctx true) Sbctl.Meta.sha256 demo_build demo_install
                   7 (start demo_state)))).
Proof.
  split; [vm_compute; reflexivity|].
  apply (sbctl_post_build_before_install (demo_ctx true) Sbctl.Meta.sha256 demo_build demo_install
           demo_state).
  - exact demo_build_appends.
  - exact demo_install_appends.
  - apply drive_rtc.
  - vm_compute. reflexivity.
Defined.

Lemma sbctl_checksum_mismatch_witness :
  drive Sbctl.template (demo_ctx true) "0000" demo_build demo_install 7 (start demo_state) =
    mkPState (PAborted (PChecksum Sbctl.Meta.sha256 "0000")) demo_state.
Proof.
  apply (sbctl_checksum_mismatch (demo_ctx true) "0000" demo_build demo_install demo_state).
  vm_compute. discriminate.
Defined.

(** The binary copied by [demo_install] lands outside the source tree. *)
Lemma demo_install_keeps_source s1 s2 a :
  demo_install s1 = Done tt s2 -> fs s2 !! (demo_cwd </> a) = fs s1 !! (demo_cwd </> a).
Proof.
  rewrite /demo_install /install_file. destruct (fs s1 !! _); [|done].
  intros [= <-]. apply lookup_insert_ne. intros Heq.
  exact (demo_trees_disjoint true a "usr/bin/sbctl" (eq_sym Heq)).
Qed.

Lemma sbctl_pipeline_installs_witness :
  exists s', drive Sbctl.template (demo_ctx true) Sbctl.Meta.sha256 demo_build demo_install
               7 (start demo_state) = mkPState PDone s' /\
    forall sh dest, sh ∈ shells -> completion_dest (demo_ctx true) sh = Some dest ->
      fs s' !! dest = Some (demo_out sh).
Proof.
  apply (sbctl_pipeline_installs (demo_ctx true) Sbctl.Meta.sha256 demo_build demo_install
           demo_state demo_sb EmptyString demo_sb_m1 demo_out).
  - reflexivity.
  - apply demo_trees_disjoint.
  - vm_compute. reflexivity.
  - vm_compute. reflexivity.
  - intros sh Hin. by apply demo_prints.
  - exists ".TH SBCTL 8". vm_compute. reflexivity.
  - exists "MIT License". vm_compute. reflexivity.
  - intros s1 Hs1.
    have Hpb : post_build (demo_ctx true) demo_sb =
               Done tt (outcome_state (post_build (demo_ctx true) demo_sb)).
    { vm_compute. reflexivity. }
    rewrite Hpb in Hs1. injection Hs1 as <-.
    have Hi : demo_install (outcome_state (post_build (demo_ctx true) demo_sb)) =
              Done tt (outcome_state (demo_install (outcome_state (post_build (demo_ctx true) demo_sb)))).
    { vm_compute. reflexivity. }
    eexists. split; [exact Hi|]. intros a. exact (demo_install_keeps_source _ _ a Hi).
Defined.

(** With a zsh completion command that fails, the demo build aborts in
    [post_build]. *)
Lemma sbctl_post_build_failure_aborts_witness :
  drive Sbctl.template (demo_ctx false) Sbctl.Meta.sha256 demo_build demo_install
    7 (start demo_state) =
    mkPState (PAborted (PHookFailed (CommandFailed (completion_cmd (demo_ctx false) "zsh") 1)))
      (outcome_state (post_build (demo_ctx false) demo_sb)) /\
  forall q, rtc (step Sbctl.template (demo_ctx false) Sbctl.Meta.sha256 demo_build demo_install)
              (start demo_state) q ->
    late (phase q) = false.
Proof.
  apply (sbctl_post_build_failure_aborts (demo_ctx false) Sbctl.Meta.sha256 demo_build demo_install
           demo_state demo_sb).
  - reflexivity.
  - vm_compute. reflexivity.
  - vm_compute. reflexivity.
Defined.

Lemma sbctl_hooks_in_order_witness :
  finished (phase (drive Sbctl.template (demo_ctx true) Sbctl.Meta.sha256 demo_build demo_install
                     7 (start demo_state))) = true /\
  exists k1 k2,
    trace (pst (drive Sbctl.template (demo_ctx true) Sbctl.Meta.sha256 demo_build demo_install
                  7 (start demo_state))) =
    k1 ++ post_build_events (demo_ctx true) ++ k2 ++
    ((fun '(src, dest) => EvInstall src dest) <$> install_plan (demo_ctx true)).
Proof.
  split; [vm_compute; reflexivity|].
  apply (sbctl_hooks_in_order (demo_ctx true) Sbctl.Meta.sha256 demo_build demo_install demo_state).
  - exact demo_build_appends.
  - exact demo_install_appends.
  - apply drive_rtc.
  - vm_compute. reflexivity.
Defined.

