(* ===== verification/NeovimPipeline.v ===== *)
(** * [neovim] built by the host pipeline

    The pipeline of [Pipeline] run on [Neovim.template arch], for every
    target architecture: the template has no [post_build], so that phase
    does nothing, and its [post_install] copies [LICENSE.txt].  The
    template meets the host's contract [HookSpec]; a build whose CMake
    strategy succeeds ends with the license in the package tree, and a
    build whose source tree lacks it aborts in [post_install] with the
    missing path. *)

From S2P Require Import Prelude Host Template Neovim Pipeline.

(** ** A concrete build, for the witnesses *)

(** A host whose every command succeeds without output or effect. *)
Definition nv_ctx : Ctx :=
  mkCtx "/builddir/neovim-0.9.5" "build" "/destdir/neovim-0.9.5" "neovim"
    (fun _ m => mkResult 0 EmptyString m).

(** The CMake build style's build step, and an install step that makes
    no copy of its own. *)
Definition nv_build : M unit := do_ nv_ctx (mkCmd "cmake" ["--build"; "build"]) None.
Definition nv_install : M unit := mret tt.

Definition nv_state (license : bool) : BState :=
  mkBState (if license then {["/builddir/neovim-0.9.5" </> "LICENSE.txt" := "Apache"]} else ∅) [].

(** ** The contract *)

Lemma neovim_post_install_emits ctx :
  emits (Neovim.post_install ctx) ((fun '(src, dest) => EvInstall src dest) <$> install_plan ctx).
Proof. eapply emits_proper; [symmetry; apply neovim_post_install_seq|apply emits_install_seq]. Qed.

#[export] Instance neovim_hook_spec arch : HookSpec (Neovim.template arch) := {
  post_build_spec_events _ := [];
  post_build_spec_emits _ := emits_ret;
  post_install_spec_events ctx := (fun '(src, dest) => EvInstall src dest) <$> install_plan ctx;
  post_install_spec_emits := neovim_post_install_emits
}.

(** ** Lemmas *)

Section Hooks.
Context (ctx : Ctx).

Lemma neovim_post_install_ok s c :
  fs s !! (cwd ctx </> "LICENSE.txt") = Some c ->
  Neovim.post_install ctx s =
    Done tt (commit (<[destdir ctx </> ("usr/share/licenses/" +:+ ctx_pkgname ctx
                        +:+ "/LICENSE.txt") := c]> (fs s))
               (EvInstall (cwd ctx </> "LICENSE.txt")
                  (destdir ctx </> ("usr/share/licenses/" +:+ ctx_pkgname ctx
                                    +:+ "/LICENSE.txt"))) s).
Proof.
  intros Hc. rewrite (neovim_post_install_seq ctx s) /= bind_ret_r (install_file_ok _ _ s c) //.
Qed.

Lemma neovim_post_install_missing s :
  fs s !! (cwd ctx </> "LICENSE.txt") = None ->
  Neovim.post_install ctx s = Failed (MissingFile (cwd ctx </> "LICENSE.txt")) s.
Proof.
  intros Hc. rewrite (neovim_post_install_seq ctx s) /=.
  by rewrite (bind_Failed _ _ _ _ _ (install_file_missing _ _ s Hc)).
Qed.
End Hooks.

(** ** Properties *)

Section NeovimPipeline.
Context (arch : string) (ctx : Ctx) (digest : string) (build_step install_step : M unit).

(** C25: on every architecture, when the archive has the expected
    checksum and the CMake build and install strategies succeed with
    [LICENSE.txt] in the source tree, the host pipeline finishes, the
    [post_build] phase doing nothing, and the package tree holds the
    license at [usr/share/licenses/<pkgname>/LICENSE.txt]. *)
Theorem neovim_pipeline_installs_license s sb si c :
  digest = Neovim.Meta.sha256 ->
  build_step s = Done tt sb -> install_step sb = Done tt si ->
  fs si !! (cwd ctx </> "LICENSE.txt") = Some c ->
  exists s', drive (Neovim.template arch) ctx digest build_step install_step 7 (start s)
               = mkPState PDone s' /\
    fs s' !! (destdir ctx </> ("usr/share/licenses/" +:+ ctx_pkgname ctx +:+ "/LICENSE.txt"))
      = Some c.
Proof.
  intros Hd Hb Hi Hc. eexists. split.
  - exact (drive_success _ _ _ _ _ s sb sb si _ (neovim_validates arch) Hd Hb eq_refl Hi
             (neovim_post_install_ok ctx si c Hc)).
  - by rewrite /= lookup_insert_eq.
Qed.

(** C26: when the source tree lacks [LICENSE.txt] after a successful
    build and install, the build aborts in [post_install], reporting
    the missing path, in the state the install strategy left. *)
Theorem neovim_missing_license_aborts s sb si :
  digest = Neovim.Meta.sha256 ->
  build_step s = Done tt sb -> install_step sb = Done tt si ->
  fs si !! (cwd ctx </> "LICENSE.txt") = None ->
  drive (Neovim.template arch) ctx digest build_step install_step 7 (start s) =
    mkPState (PAborted (PHookFailed (MissingFile (cwd ctx </> "LICENSE.txt")))) si.
Proof.
  intros Hd Hb Hi Hc.
  exact (drive_post_install_fails _ _ _ _ _ s sb sb si _ _ (neovim_validates arch) Hd Hb eq_refl Hi
           (neovim_post_install_missing ctx si Hc)).
Qed.
(** C32: in every run on [neovim] whose build and install strategies
    only append to the trace, a build that has passed [post_install]
    ends its trace with the copy of [LICENSE.txt]: the license is the
    last thing installed before packaging. *)
Theorem neovim_license_installed_last s q :
  appends build_step -> appends install_step ->
  rtc (step (Neovim.template arch) ctx digest build_step install_step) (start s) q ->
  finished (phase q) = true ->
  exists k, trace (pst q) =
    k ++ [EvInstall (cwd ctx </> "LICENSE.txt")
            (destdir ctx </> ("usr/share/licenses/" +:+ ctx_pkgname ctx +:+ "/LICENSE.txt"))].
Proof.
  intros Hb Hi Hq Hf.
  destruct (hooks_in_order (Neovim.template arch) ctx digest _ _ Hb Hi s q Hq Hf)
    as (k1 & k2 & ->).
  exists (k1 ++ k2). by rewrite /= app_assoc.
Qed.

End NeovimPipeline.

(** ** Witnesses *)

Lemma neovim_pipeline_installs_license_witness :
  exists s', drive (Neovim.template "x86_64") nv_ctx Neovim.Meta.sha256 nv_build nv_install
               7 (start (nv_state true)) = mkPState PDone s' /\
    fs s' !! (destdir nv_ctx </> ("usr/share/licenses/" +:+ ctx_pkgname nv_ctx +:+ "/LICENSE.txt"))
      = Some "Apache".
Proof.
  apply (neovim_pipeline_installs_license "x86_64" nv_ctx Neovim.Meta.sha256 nv_build nv_install
           (nv_state true) (outcome_state (nv_build (nv_state true)))
           (outcome_state (nv_build (nv_state true)))).
  - reflexivity.
  - vm_compute. reflexivity.
  - reflexivity.
  - vm_compute. reflexivity.
Defined.

Lemma neovim_missing_license_aborts_witness :
  drive (Neovim.template "riscv64") nv_ctx Neovim.Meta.sha256 nv_build nv_install
    7 (start (nv_state false)) =
    mkPState (PAborted (PHookFailed (MissingFile (cwd nv_ctx </> "LICENSE.txt"))))
      (outcome_state (nv_build (nv_state false))).
Proof.
  apply (neovim_missing_license_aborts "riscv64" nv_ctx Neovim.Meta.sha256 nv_build nv_install
           (nv_state false) (outcome_state (nv_build (nv_state false)))).
  - reflexivity.
  - vm_compute. reflexivity.
  - reflexivity.
  - vm_compute. reflexivity.
Defined.

Lemma nv_build_appends : appends nv_build.
Proof. intros s. eapply emits_prefix, emits_do. Qed.

Lemma nv_install_appends : appends nv_install.
Proof. intros s. eapply emits_prefix, emits_ret. Qed.

Lemma neovim_license_installed_last_witness :
  finished (phase (drive (Neovim.template "aarch64") nv_ctx Neovim.Meta.sha256 nv_build nv_install
                     7 (start (nv_state true)))) = true /\
  exists k, trace (pst (drive (Neovim.template "aarch64") nv_ctx Neovim.Meta.sha256 nv_build
                          nv_install 7 (start (nv_state true)))) =
    k ++ [EvInstall (cwd nv_ctx </> "LICENSE.txt")
            (destdir nv_ctx </> ("usr/share/licenses/" +:+ ctx_pkgname nv_ctx +:+ "/LICENSE.txt"))].
Proof.
  split; [vm_compute; reflexivity|].
  apply (neovim_license_installed_last "aarch64" nv_ctx Neovim.Meta.sha256 nv_build nv_install
           (nv_state true)).
  - exact nv_build_appends.
  - exact nv_install_appends.
  - apply drive_rtc.
  - vm_compute. reflexivity.
Defined.
