(* ===== verification/PostBuild.v ===== *)
(** * [sbctl]'s [post_build] as a loop, and where it stops

    Lines 23-48 of [src/contrib/sbctl/template.py] are three copies of
    one block, [with open(self.cwd / "sbctl.<shell>", "w") as cf:
    self.do(self.make_dir + "/sbctl", "completion", <shell>, stdout=cf)].
    [completion_block] is that block for one shell and [run_blocks] runs
    it for a list of shells in order; [post_build] is proved equivalent
    to [gmake man] followed by [run_blocks] over [bash], [zsh], [fish].
    From the loop follows what [post_build] does when any one of its
    four commands is the first to fail: the error it reports, the files
    it has written, truncated or left alone, and the events it has
    emitted. *)

From S2P Require Import Prelude Host Sbctl.

(** ** The loop *)

(** One [with open(...) as cf: self.do(..., stdout=cf)] block. *)
Definition completion_block (ctx : Ctx) (shell : string) : M unit :=
  with_open_write (completion_file ctx shell) (fun cf =>
    do_ ctx (completion_cmd ctx shell) (Some cf)).

Fixpoint run_blocks (ctx : Ctx) (l : list string) : M unit :=
  match l with
  | [] => mret tt
  | sh :: r => completion_block ctx sh;; run_blocks ctx r
  end.

(** The events of one block. *)
Definition block_events (ctx : Ctx) (shell : string) : list Event :=
  [EvOpen (completion_file ctx shell); EvRun (completion_cmd ctx shell)].

(** The tree after the blocks of [l] ran, each writing [out sh]. *)
Fixpoint written_tree (ctx : Ctx) (out : string -> string) (l : list string)
    (m : gmap string string) : gmap string string :=
  match l with
  | [] => m
  | sh :: r => written_tree ctx out r (<[completion_file ctx sh := out sh]> m)
  end.

(** ** Lemmas *)

Section Loop.
Context (ctx : Ctx) (out : string -> string).

Lemma post_build_blocks : post_build ctx ≡ (do_ ctx man_cmd None;; run_blocks ctx shells).
Proof. rewrite /post_build /=. by setoid_rewrite bind_ret_r_equiv. Qed.

Lemma post_build_events_blocks :
  post_build_events ctx = EvRun man_cmd :: mjoin (block_events ctx <$> shells).
Proof. reflexivity. Qed.

Lemma block_events_length l : length (mjoin (block_events ctx <$> l)) = 2 * length l.
Proof. induction l as [|sh l IH]; [done|]. rewrite /= IH. lia. Qed.

Lemma completion_block_prints sh s :
  cmd_prints ctx (completion_cmd ctx sh) (out sh) ->
  completion_block ctx sh s =
    Done tt (mkBState (<[completion_file ctx sh := out sh]> (fs s))
                      (trace s ++ block_events ctx sh)).
Proof. apply open_do_prints. Qed.

Lemma completion_block_fails sh s r :
  run ctx (completion_cmd ctx sh) (<[completion_file ctx sh := EmptyString]> (fs s)) = r ->
  exit_code r <> 0 ->
  completion_block ctx sh s =
    Failed (CommandFailed (completion_cmd ctx sh) (exit_code r))
      (mkBState (<[completion_file ctx sh := cmd_stdout r]> (fs_after r))
                (trace s ++ block_events ctx sh)).
Proof.
  intros Hr Hc. rewrite /completion_block with_open_write_eq (do_fail ctx _ _ _ r) //.
  by rewrite /commit /= -app_assoc.
Qed.

(** Blocks whose commands print: every file written, all events. *)
Lemma run_blocks_prints l s :
  (forall sh, sh ∈ l -> cmd_prints ctx (completion_cmd ctx sh) (out sh)) ->
  run_blocks ctx l s =
    Done tt (mkBState (written_tree ctx out l (fs s))
                      (trace s ++ mjoin (block_events ctx <$> l))).
Proof.
  revert s. induction l as [|sh l IH]; intros s Hl; simpl.
  - by rewrite app_nil_r; destruct s.
  - rewrite (bind_Done _ _ _ tt _ (completion_block_prints sh s (Hl sh ltac:(set_solver)))).
    rewrite IH /=; last set_solver. by rewrite -app_assoc.
Qed.

(** The first failing block ends the loop: the blocks before it wrote
    their files, its own file holds what the failing command printed,
    and the blocks after it neither open nor write anything. *)
Lemma run_blocks_first_failure pre sh post s r :
  (forall sh', sh' ∈ pre -> cmd_prints ctx (completion_cmd ctx sh') (out sh')) ->
  run ctx (completion_cmd ctx sh)
    (<[completion_file ctx sh := EmptyString]> (written_tree ctx out pre (fs s))) = r ->
  exit_code r <> 0 ->
  run_blocks ctx (pre ++ sh :: post) s =
    Failed (CommandFailed (completion_cmd ctx sh) (exit_code r))
      (mkBState (<[completion_file ctx sh := cmd_stdout r]> (fs_after r))
                (trace s ++ mjoin (block_events ctx <$> pre) ++ block_events ctx sh)).
Proof.
  revert s. induction pre as [|sh0 pre IH]; intros s Hpre Hr Hc; simpl.
  - by rewrite (bind_Failed _ _ _ _ _ (completion_block_fails sh s r Hr Hc)).
  - rewrite (bind_Done _ _ _ tt _ (completion_block_prints sh0 s (Hpre sh0 ltac:(set_solver)))).
    rewrite IH /=; [by rewrite -!app_assoc|set_solver|done|done].
Qed.


Lemma take_post_build_events pre sh post :
  shells = pre ++ sh :: post ->
  take (3 + 2 * length pre) (post_build_events ctx) =
    EvRun man_cmd :: mjoin (block_events ctx <$> pre) ++ block_events ctx sh.
Proof.
  intros Hs. rewrite post_build_events_blocks Hs fmap_app join_app.
  change (3 + 2 * length pre) with (S (2 + 2 * length pre)). rewrite firstn_cons.
  rewrite (_ : mjoin (block_events ctx <$> sh :: post) =
               block_events ctx sh ++ mjoin (block_events ctx <$> post)) // app_assoc.
  rewrite take_app_length' // length_app block_events_length /=. lia.
Qed.

End Loop.

(** ** The loop *)


(** ** Where [post_build] stops *)

(** C5: when a completion command is the first of [post_build]'s
    commands to fail ([gmake man] and the completion commands of the
    shells before it succeeded), [post_build] fails with that command
    and its exit status.  The completion files of the shells before it
    hold their commands' outputs, its own file, truncated when opened,
    holds what the failing command printed, the files of the shells
    after it are neither opened nor written, and the trace stops after
    the failing command. *)
Theorem post_build_first_failure ctx s o m1 out pre sh post r :
  shells = pre ++ sh :: post ->
  run ctx man_cmd (fs s) = mkResult 0 o m1 ->
  (forall sh', sh' ∈ pre -> cmd_prints ctx (completion_cmd ctx sh') (out sh')) ->
  run ctx (completion_cmd ctx sh)
    (<[completion_file ctx sh := EmptyString]> (written_tree ctx out pre m1)) = r ->
  exit_code r <> 0 ->
  post_build ctx s =
    Failed (CommandFailed (completion_cmd ctx sh) (exit_code r))
      (mkBState (<[completion_file ctx sh := cmd_stdout r]> (fs_after r))
                (trace s ++ take (3 + 2 * length pre) (post_build_events ctx))).
Proof.
  intros Hs Hman Hpre Hr Hc.
  rewrite (post_build_blocks ctx s) (take_post_build_events ctx pre sh post Hs).
  rewrite (bind_Done _ _ _ tt (commit m1 (EvRun man_cmd) s));
    last exact (do_ok ctx man_cmd None s o m1 Hman).
  rewrite Hs (run_blocks_first_failure ctx out pre sh post (commit m1 (EvRun man_cmd) s) r Hpre Hr Hc) /=.
  by rewrite -!app_assoc.
Qed.

(** C17: when [gmake man] fails, [post_build] fails with it and its exit
    status before any completion file is opened: the tree is the one
    the failed command left and the trace ends with it. *)
Theorem post_build_man_fails ctx s r :
  run ctx man_cmd (fs s) = r -> exit_code r <> 0 ->
  post_build ctx s =
    Failed (CommandFailed man_cmd (exit_code r))
      (mkBState (fs_after r) (trace s ++ [EvRun man_cmd])).
Proof.
  intros Hr Hc. rewrite (post_build_blocks ctx s).
  by rewrite (bind_Failed _ _ _ _ _ (do_fail ctx man_cmd None s r Hr Hc)).
Qed.

(** ** Witnesses *)

Lemma post_build_first_failure_witness :
  exists r, post_build (demo_ctx false) demo_state =
    Failed (CommandFailed (completion_cmd (demo_ctx false) "zsh") (exit_code r))
      (mkBState (<[completion_file (demo_ctx false) "zsh" := cmd_stdout r]> (fs_after r))
                (trace demo_state ++ take 5 (post_build_events (demo_ctx false)))).
Proof.
  eexists.
  apply (post_build_first_failure (demo_ctx false) demo_state EmptyString demo_m1 demo_out
           ["bash"] "zsh" ["fish"]).
  - reflexivity.
  - reflexivity.
  - intros sh Hin. apply demo_prints; [set_solver|]. intros ->. set_solver.
  - reflexivity.
  - vm_compute. discriminate.
Defined.

Lemma post_build_man_fails_witness :
  post_build (mkCtx demo_cwd "build" "/destdir/sbctl-0.12" "sbctl"
                (fun c m => mkResult 2 "gmake: no rule" m)) demo_state =
    Failed (CommandFailed man_cmd 2) (mkBState (fs demo_state) [EvRun man_cmd]).
Proof.
  apply (post_build_man_fails _ demo_state (mkResult 2 "gmake: no rule" (fs demo_state))).
  - reflexivity.
  - discriminate.
Defined.
