(* ===== verification/Namespace.v ===== *)
(** * Python module namespaces, and the host reading a template from one

    A template is a Python module: the host executes its body and reads
    the globals it bound (spec sections 3 and 6).  This file models the
    global namespace of a module as a [gmap] from names to the values the
    templates bind (strings, integers, lists of strings, hook functions),
    the statements the templates execute on it ([x = v]; [x += l] on a
    list, which [list.__iadd__] extends in place; f-strings, evaluated
    when their line runs), and the host's reading of a [Template] record
    from a namespace (modelled from the spec: required fields, defaults
    for the optional ones).  A statement can fail with a Python error,
    so executing code is a computation of the error monad [Py]. *)

From stdpp Require Import pretty.
From S2P Require Import Prelude Host Template.

(** ** Values, namespaces and errors *)

Inductive PyVal :=
| VStr (s : string)
| VInt (n : nat)
| VList (l : list string)
| VFun (f : Ctx -> M unit).

Definition Namespace := gmap string PyVal.

Inductive PyError :=
| NameError (x : string)
| TypeError (x : string)
(** An f-string field holding a list or a function, whose [repr] is not
    modelled; no template formats one. *)
| Unformatted (x : string).

Definition Py (A : Type) : Type := PyError + A.

#[export] Instance py_ret : MRet Py := fun A x => inr x.
#[export] Instance py_bind : MBind Py :=
  fun A B f m => match m with inl e => inl e | inr x => f x end.
#[export] Instance py_fmap : FMap Py :=
  fun A B f m => match m with inl e => inl e | inr x => inr (f x) end.

(** ** Statements *)

(** [x = v] at module level. *)
Definition assign (x : string) (v : PyVal) (ns : Namespace) : Namespace := <[x := v]> ns.

(** Consecutive assignments, in source order. *)
Fixpoint assign_all (l : list (string * PyVal)) (ns : Namespace) : Namespace :=
  match l with
  | [] => ns
  | (x, v) :: r => assign_all r (assign x v ns)
  end.

(** [x += l]: a name bound to a list is extended in place; an unbound
    name raises [NameError], any other value [TypeError]. *)
Definition iadd (x : string) (l : list string) (ns : Namespace) : Py Namespace :=
  match ns !! x with
  | Some (VList l0) => inr (<[x := VList (l0 ++ l)]> ns)
  | Some _ => inl (TypeError x)
  | None => inl (NameError x)
  end.

(** The pieces of an f-string: literal text and [{name}] fields. *)
Inductive FPart := FLit (s : string) | FField (x : string).

Definition lookup_global (ns : Namespace) (x : string) : Py PyVal :=
  match ns !! x with Some v => inr v | None => inl (NameError x) end.

(** [format(v)] of a field, with the empty format spec. *)
Definition py_format (x : string) (v : PyVal) : Py string :=
  match v with
  | VStr s => inr s
  | VInt n => inr (pretty n)
  | VList _ | VFun _ => inl (Unformatted x)
  end.

(** An f-string, its fields evaluated left to right. *)
Fixpoint fstring (parts : list FPart) (ns : Namespace) : Py string :=
  match parts with
  | [] => inr EmptyString
  | FLit s :: r => t ← fstring r ns; inr (s +:+ t)
  | FField x :: r =>
      v ← lookup_global ns x; s ← py_format x v; t ← fstring r ns; inr (s +:+ t)
  end.

(** ** The host reads the template *)

(** A string field, with its default when the module leaves it unbound
    ([None]: the field is required). *)
Definition get_str (ns : Namespace) (x : string) (dflt : option string) : option string :=
  match ns !! x with Some (VStr s) => Some s | None => dflt | Some _ => None end.

Definition get_nat (ns : Namespace) (x : string) : option nat :=
  match ns !! x with Some (VInt n) => Some n | _ => None end.

(** A list field; unbound means empty. *)
Definition get_list (ns : Namespace) (x : string) : option (list string) :=
  match ns !! x with Some (VList l) => Some l | None => Some [] | Some _ => None end.

(** A hook; unbound means none. *)
Definition get_hook (ns : Namespace) (x : string) : option (option (Ctx -> M unit)) :=
  match ns !! x with Some (VFun f) => Some (Some f) | None => Some None | Some _ => None end.

Definition read_template (ns : Namespace) : option Template :=
  n ← get_str ns "pkgname" None;
  v ← get_str ns "pkgver" None;
  r ← get_nat ns "pkgrel";
  bs ← get_str ns "build_style" (Some EmptyString);
  ca ← get_list ns "configure_args";
  mba ← get_list ns "make_build_args";
  hmd ← get_list ns "hostmakedepends";
  md ← get_list ns "makedepends";
  d ← get_list ns "depends";
  desc ← get_str ns "pkgdesc" None;
  mt ← get_str ns "maintainer" None;
  lic ← get_str ns "license" None;
  u ← get_str ns "url" None;
  src ← get_str ns "source" (Some EmptyString);
  sha ← get_str ns "sha256" (Some EmptyString);
  opts ← get_list ns "options";
  pb ← get_hook ns "post_build";
  pi ← get_hook ns "post_install";
  Some (mkTemplate n v r bs ca mba hmd md d desc mt lic u src sha opts pb pi).

(** The names the host reads. *)
Definition template_fields : list string :=
  ["pkgname"; "pkgver"; "pkgrel"; "build_style"; "configure_args"; "make_build_args";
   "hostmakedepends"; "makedepends"; "depends"; "pkgdesc"; "maintainer"; "license";
   "url"; "source"; "sha256"; "options"; "post_build"; "post_install"].

(** A module body whose result is its own bindings over the namespace it
    ran in: it reads only names it bound itself. *)
Definition local (f : Namespace -> Py Namespace) : Prop :=
  forall ns, f ns = (fun E => E ∪ ns) <$> f ∅.

(** ** Lemmas *)

Lemma assign_all_union l ns : assign_all l ns = assign_all l ∅ ∪ ns.
Proof.
  revert ns. induction l as [|[x v] l IH]; intros ns; simpl.
  - by rewrite (left_id_L ∅ (∪)).
  - rewrite IH (IH (assign x v ∅)) /assign -(assoc_L (∪)).
    by rewrite -insert_union_l (left_id_L ∅ (∪)).
Qed.

Lemma assign_union x v A ns : assign x v (A ∪ ns) = assign x v A ∪ ns.
Proof. apply insert_union_l. Qed.

Lemma iadd_union x l l0 A ns :
  A !! x = Some (VList l0) -> iadd x l (A ∪ ns) = inr (<[x := VList (l0 ++ l)]> A ∪ ns).
Proof.
  intros Hx. rewrite /iadd (lookup_union_Some_l _ _ _ _ Hx). by rewrite insert_union_l.
Qed.

Lemma fstring_union parts A ns :
  (forall x, FField x ∈ parts -> is_Some (A !! x)) -> fstring parts (A ∪ ns) = fstring parts A.
Proof.
  induction parts as [|[s|x] r IH]; intros HA; simpl; [done| |].
  - rewrite IH //. intros y Hy. apply HA. set_solver.
  - rewrite /lookup_global (lookup_union_l' A ns x); last (apply HA; set_solver).
    rewrite IH //. intros y Hy. apply HA. set_solver.
Qed.

Lemma read_template_agree ns1 ns2 :
  (forall x, x ∈ template_fields -> ns1 !! x = ns2 !! x) ->
  read_template ns1 = read_template ns2.
Proof.
  intros H. rewrite /read_template /get_str /get_nat /get_list /get_hook.
  rewrite !H //; decide_closed.
Qed.

(** Reading [E ∪ ns] reads [E] when [ns] binds no field [E] leaves
    unbound. *)
Lemma read_template_union E ns :
  (forall x, x ∈ template_fields -> E !! x = None -> ns !! x = None) ->
  read_template (E ∪ ns) = read_template E.
Proof.
  intros H. apply read_template_agree. intros x Hx.
  destruct (E !! x) as [v|] eqn:HE.
  - by apply lookup_union_Some_l.
  - by rewrite lookup_union_r // H.
Qed.

(** Re-running a local module body over the namespace it produced
    changes nothing. *)
Lemma local_idem f ns ns' : local f -> f ns = inr ns' -> f ns' = inr ns'.
Proof.
  intros Hf. rewrite Hf (Hf ns'). destruct (f ∅) as [e|E]; [done|]. intros [= <-].
  by rewrite /= (assoc_L (∪)) (idemp_L (∪)).
Qed.

Lemma py_bind_inr {A B} (x : A) (f : A -> Py B) : (inr x ≫= f) = f x.
Proof. reflexivity. Qed.

Lemma py_fmap_inr {A B} (x : A) (f : A -> B) : f <$> (inr x : Py A) = inr (f x).
Proof. reflexivity. Qed.

(** [+=] on a name the left part binds works on the left part. *)
Lemma iadd_local x l A ns :
  is_Some (A !! x) -> iadd x l (A ∪ ns) = (fun A' => A' ∪ ns) <$> iadd x l A.
Proof.
  intros [v Hv]. rewrite /iadd (lookup_union_Some_l _ _ _ _ Hv) Hv.
  destruct v; simpl; try done. by rewrite insert_union_l.
Qed.

(** [+=] binds the same names as before. *)
Lemma iadd_is_Some x l A A' k :
  iadd x l A = inr A' -> is_Some (A !! k) -> is_Some (A' !! k).
Proof.
  rewrite /iadd. destruct (A !! x) as [[]|]; intros; simplify_eq.
  by rewrite lookup_insert_is_Some'; right.
Qed.
