(* ===== verification/Load.v ===== *)
(** * Executing the two template modules

    The body of each [template.py], statement by statement, on the
    module's global namespace ([Namespace]): [sbctl_exec] runs lines
    1-16 of [src/contrib/sbctl/template.py] (the f-string of line 14 is
    evaluated when its line runs, from the names bound above it) and
    binds the two hooks of lines 19 and 51; [neovim_exec arch] runs
    lines 2-37 of [src/contrib/neovim/template.py], then the [match] of
    lines 40-49, whose [+=] statements extend the module's lists in
    place, then binds the hook of line 52.  The theorems show that the
    host reads from the loaded module exactly the records [Sbctl.template]
    and [Neovim.template arch] the other files reason about, and that
    loading a module again over the namespace it produced changes
    nothing (spec section 8, "Idempotence"). *)

From S2P Require Import Prelude Host Template Sbctl Neovim Namespace.

(** ** [sbctl] *)

(** Lines 1-13. *)
Definition sbctl_head : list (string * PyVal) :=
  [("pkgname", VStr Sbctl.Meta.pkgname); ("pkgver", VStr Sbctl.Meta.pkgver);
   ("pkgrel", VInt Sbctl.Meta.pkgrel); ("build_style", VStr Sbctl.Meta.build_style);
   ("make_build_args", VList Sbctl.Meta.make_build_args);
   ("hostmakedepends", VList Sbctl.Meta.hostmakedepends);
   ("depends", VList Sbctl.Meta.depends); ("pkgdesc", VStr Sbctl.Meta.pkgdesc);
   ("maintainer", VStr Sbctl.Meta.maintainer); ("license", VStr Sbctl.Meta.license);
   ("url", VStr Sbctl.Meta.url)].

(** Line 14: [f"{url}/releases/download/{pkgver}/{pkgname}-{pkgver}.tar.gz"]. *)
Definition sbctl_source_fstring : list FPart :=
  [FField "url"; FLit "/releases/download/"; FField "pkgver"; FLit "/"; FField "pkgname";
   FLit "-"; FField "pkgver"; FLit ".tar.gz"].

(** Line 14's assignment, lines 15-16 and the two [def]s. *)
Definition sbctl_tail (src : string) : list (string * PyVal) :=
  [("source", VStr src); ("sha256", VStr Sbctl.Meta.sha256);
   ("options", VList Sbctl.Meta.options);
   ("post_build", VFun Sbctl.post_build); ("post_install", VFun Sbctl.post_install)].

Definition sbctl_exec (ns : Namespace) : Py Namespace :=
  let ns := assign_all sbctl_head ns in
  src ← fstring sbctl_source_fstring ns;
  inr (assign_all (sbctl_tail src) ns).

(** ** [neovim] *)

(** Lines 2-37. *)
Definition neovim_head : list (string * PyVal) :=
  [("pkgname", VStr Neovim.Meta.pkgname); ("pkgver", VStr Neovim.Meta.pkgver);
   ("pkgrel", VInt Neovim.Meta.pkgrel); ("build_style", VStr Neovim.Meta.build_style);
   ("configure_args", VList Neovim.Meta.configure_args);
   ("hostmakedepends", VList Neovim.Meta.hostmakedepends);
   ("makedepends", VList Neovim.Meta.makedepends); ("pkgdesc", VStr Neovim.Meta.pkgdesc);
   ("maintainer", VStr Neovim.Meta.maintainer); ("license", VStr Neovim.Meta.license);
   ("url", VStr Neovim.Meta.url); ("source", VStr Neovim.Meta.source);
   ("sha256", VStr Neovim.Meta.sha256); ("options", VList Neovim.Meta.options)].

(** Lines 40-49: the arm [arch_delta] selects, three [+=]. *)
Definition neovim_match (arch : string) (ns : Namespace) : Py Namespace :=
  let d := arch_delta arch in
  ns ← iadd "configure_args" (configure_args_add d) ns;
  ns ← iadd "hostmakedepends" (hostmakedepends_add d) ns;
  iadd "makedepends" (makedepends_add d) ns.

Definition neovim_exec (arch : string) (ns : Namespace) : Py Namespace :=
  ns ← neovim_match arch (assign_all neovim_head ns);
  inr (assign "post_install" (VFun Neovim.post_install) ns).

(** A namespace left over from an earlier load of another module. *)
Definition stale_ns : Namespace :=
  <["pkgname" := VStr "other"]> (<["depends" := VList ["x"; "x"]]> ∅).

(** ** Lemmas *)

Lemma sbctl_exec_local : local sbctl_exec.
Proof.
  intros ns. rewrite /sbctl_exec (assign_all_union sbctl_head ns) fstring_union.
  - destruct (fstring sbctl_source_fstring (assign_all sbctl_head ∅)) as [e|src]; [done|].
    rewrite !py_bind_inr py_fmap_inr (assign_all_union _ (_ ∪ ns)).
    by rewrite (assign_all_union (sbctl_tail src) (assign_all sbctl_head ∅)) (assoc_L (∪)).
  - intros x Hx. set_unfold in Hx. destruct_or! Hx; simplify_eq; decide_closed.
Qed.

Lemma neovim_match_local arch A ns :
  (forall x, x ∈ ["configure_args"; "hostmakedepends"; "makedepends"] -> is_Some (A !! x)) ->
  neovim_match arch (A ∪ ns) = (fun A' => A' ∪ ns) <$> neovim_match arch A.
Proof.
  intros HA. rewrite /neovim_match iadd_local; last (apply HA; set_solver).
  destruct (iadd "configure_args" _ A) as [e|A1] eqn:H1; [done|].
  rewrite py_fmap_inr !py_bind_inr iadd_local;
    last (apply (iadd_is_Some _ _ _ _ _ H1), HA; set_solver).
  destruct (iadd "hostmakedepends" _ A1) as [e|A2] eqn:H2; [done|].
  rewrite py_fmap_inr !py_bind_inr iadd_local //.
  apply (iadd_is_Some _ _ _ _ _ H2), (iadd_is_Some _ _ _ _ _ H1), HA; set_solver.
Qed.

Lemma neovim_exec_local arch : local (neovim_exec arch).
Proof.
  intros ns. rewrite /neovim_exec (assign_all_union neovim_head ns) neovim_match_local.
  - destruct (neovim_match arch (assign_all neovim_head ∅)) as [e|A]; [done|].
    by rewrite !py_bind_inr py_fmap_inr assign_union.
  - intros x Hx. set_unfold in Hx. destruct_or! Hx; subst x; decide_closed.
Qed.

Lemma sbctl_exec_empty :
  sbctl_exec ∅ = inr (assign_all (sbctl_tail Sbctl.Meta.source) (assign_all sbctl_head ∅)).
Proof.
  rewrite /sbctl_exec.
  have -> : fstring sbctl_source_fstring (assign_all sbctl_head ∅) = inr Sbctl.Meta.source
    by vm_compute; reflexivity.
  reflexivity.
Qed.

Lemma neovim_exec_empty arch :
  neovim_exec arch ∅ =
    inr (assign "post_install" (VFun Neovim.post_install)
      (<["makedepends" := VList (Neovim.Meta.makedepends ++ makedepends_add (arch_delta arch))]>
      (<["hostmakedepends" :=
           VList (Neovim.Meta.hostmakedepends ++ hostmakedepends_add (arch_delta arch))]>
      (<["configure_args" :=
           VList (Neovim.Meta.configure_args ++ configure_args_add (arch_delta arch))]>
        (assign_all neovim_head ∅))))).
Proof. reflexivity. Qed.

(** ** Loading yields the templates *)

(** C19: executing [sbctl]'s module in a namespace that binds neither
    [configure_args] nor [makedepends] succeeds, and the host reads from
    the result exactly [Sbctl.template]: the f-string of line 14 gives
    [Sbctl.Meta.source], the two [def]s give the hooks, and the fields
    the module leaves unbound take their defaults. *)
Theorem sbctl_load_template ns :
  ns !! "configure_args" = None -> ns !! "makedepends" = None ->
  exists ns', sbctl_exec ns = inr ns' /\ read_template ns' = Some Sbctl.template.
Proof.
  intros H1 H2. rewrite sbctl_exec_local sbctl_exec_empty /=. eexists; split; [done|].
  rewrite read_template_union; [vm_compute; reflexivity|].
  intros x Hx HE. set_unfold in Hx. destruct_or! Hx; subst x; try done;
    vm_compute in HE; discriminate HE.
Qed.

(** C20: for every target architecture, executing [neovim]'s module in
    a namespace that binds none of [make_build_args], [depends] and
    [post_build] succeeds (every [+=] finds the list the module bound),
    and the host reads from the result exactly [Neovim.template arch]. *)
Theorem neovim_load_template arch ns :
  ns !! "make_build_args" = None -> ns !! "depends" = None -> ns !! "post_build" = None ->
  exists ns', neovim_exec arch ns = inr ns' /\ read_template ns' = Some (Neovim.template arch).
Proof.
  intros H1 H2 H3. rewrite neovim_exec_local neovim_exec_empty /=. eexists; split; [done|].
  rewrite read_template_union; [vm_compute; reflexivity|].
  intros x Hx HE. set_unfold in Hx. destruct_or! Hx; subst x; try done;
    vm_compute in HE; discriminate HE.
Qed.

(** ** Loading again *)


(** C22: the same for [neovim] on any architecture: the assignments of
    lines 6-28 bind fresh lists before the [match] extends them in
    place, so a second load does not append the Lua entries twice. *)
Theorem neovim_reload_idempotent arch ns ns' :
  neovim_exec arch ns = inr ns' -> neovim_exec arch ns' = inr ns'.
Proof. apply local_idem, neovim_exec_local. Qed.


(** ** Witnesses *)

Lemma sbctl_load_template_witness :
  exists ns', sbctl_exec stale_ns = inr ns' /\ read_template ns' = Some Sbctl.template.
Proof. apply sbctl_load_template; reflexivity. Defined.

Lemma neovim_load_template_witness :
  exists ns', neovim_exec "ppc64le" ∅ = inr ns' /\
    read_template ns' = Some (Neovim.template "ppc64le").
Proof. apply neovim_load_template; reflexivity. Defined.


Lemma neovim_reload_idempotent_witness :
  exists ns', neovim_exec "riscv64" ∅ = inr ns' /\ neovim_exec "riscv64" ns' = inr ns'.
Proof.
  eexists. split; [apply neovim_exec_empty|].
  apply (neovim_reload_idempotent "riscv64" ∅), neovim_exec_empty.
Defined.
