(* ===== verification/Source.v ===== *)
(** * The source URLs of the two templates, read back

    Line 14 of [src/contrib/sbctl/template.py] and line 33 of
    [src/contrib/neovim/template.py] build the archive URL from
    [pkgver] with an f-string ([Sbctl.Meta.source_of],
    [Neovim.Meta.source_of]).  This file gives for each a parser that
    reads the version back from a URL and proves the round trip: the
    parser recovers the version the f-string was given.  Hence the
    f-strings are injective in [pkgver]: a version bump always changes
    the archive the host fetches, and so the checksum to update. *)

From S2P Require Import Prelude Sbctl Neovim.

(** ** String scanning *)

(** [s] with the prefix [p] removed, when [s] starts with [p]. *)
Fixpoint strip_prefix (p s : string) : option string :=
  match p, s with
  | EmptyString, _ => Some s
  | String a p', String b s' => if decide (a = b) then strip_prefix p' s' else None
  | String _ _, EmptyString => None
  end.

(** The text before the first [c] of [s], when [c] occurs. *)
Fixpoint before_char (c : ascii) (s : string) : option string :=
  match s with
  | EmptyString => None
  | String a r => if decide (a = c) then Some EmptyString else String a <$> before_char c r
  end.

(** [s] without the suffix [x], when [s] ends with [x]. *)
Definition strip_suffix (x s : string) : option string :=
  let n := String.length s - String.length x in
  if decide (String.length x <= String.length s /\ String.substring n (String.length x) s = x)
  then Some (String.substring 0 n s) else None.

(** ** The parsers *)

Definition sbctl_version_of (url s : string) : option string :=
  strip_prefix (url +:+ "/releases/download/") s ≫= before_char "/"%char.

Definition neovim_version_of (s : string) : option string :=
  strip_prefix "https://github.com/neovim/neovim/archive/v" s ≫= strip_suffix ".tar.gz".

(** ** Lemmas *)

Lemma strip_prefix_app p s : strip_prefix p (p +:+ s) = Some s.
Proof. induction p as [|a p IH]; [by destruct s|]. by rewrite string_app_cons /= decide_True. Qed.

Lemma before_char_app c a b :
  has_char c a = false -> before_char c (a +:+ String c b) = Some a.
Proof.
  induction a as [|x a IH]; intros Ha; simpl.
  - by rewrite decide_True.
  - apply orb_false_iff in Ha as [Hx%bool_decide_eq_false Ha].
    by rewrite decide_False // IH.
Qed.

Lemma length_app_str a b : String.length (a +:+ b) = String.length a + String.length b.
Proof. induction a as [|x a IH]; [done|]. by rewrite string_app_cons /= IH. Qed.

Lemma substring_app_l a b : String.substring 0 (String.length a) (a +:+ b) = a.
Proof. induction a as [|x a IH]; [by destruct b|]. by rewrite string_app_cons /= IH. Qed.

Lemma substring_app_r a b :
  String.substring (String.length a) (String.length b) (a +:+ b) = b.
Proof.
  induction a as [|x a IH]; simpl.
  - induction b as [|y b IHb]; [done|]. simpl. by rewrite IHb.
  - exact IH.
Qed.

Lemma strip_suffix_app a x : strip_suffix x (a +:+ x) = Some a.
Proof.
  rewrite /strip_suffix length_app_str.
  rewrite (_ : String.length a + String.length x - String.length x = String.length a); last lia.
  rewrite decide_True; [by rewrite substring_app_l|split; [lia|apply substring_app_r]].
Qed.

Lemma sbctl_parse_source url v n :
  has_char "/"%char v = false -> sbctl_version_of url (Sbctl.Meta.source_of url v n) = Some v.
Proof.
  intros Hv. rewrite /sbctl_version_of /Sbctl.Meta.source_of.
  rewrite -(string_app_assoc url "/releases/download/") strip_prefix_app /=.
  rewrite (string_app_cons "/"%char EmptyString) string_app_nil. by apply before_char_app.
Qed.

Lemma neovim_parse_source v : neovim_version_of (Neovim.Meta.source_of v) = Some v.
Proof.
  rewrite /neovim_version_of /Neovim.Meta.source_of strip_prefix_app /=.
  apply strip_suffix_app.
Qed.

(** ** Properties *)

(** C27: the version is read back from [sbctl]'s source URL: for every
    [url], [pkgname] and [pkgver] without a slash, the parser returns the
    [pkgver] the f-string of line 14 was given; hence two versions
    without a slash give different URLs. *)
Theorem sbctl_source_roundtrip url n v :
  has_char "/"%char v = false ->
  sbctl_version_of url (Sbctl.Meta.source_of url v n) = Some v /\
  forall v' n', has_char "/"%char v' = false ->
    Sbctl.Meta.source_of url v n = Sbctl.Meta.source_of url v' n' -> v = v'.
Proof.
  intros Hv. split; [by apply sbctl_parse_source|]. intros v' n' Hv' Heq.
  have H := sbctl_parse_source url v n Hv. rewrite Heq sbctl_parse_source // in H. by simplify_eq.
Qed.


(** ** Witnesses *)

Lemma sbctl_source_roundtrip_witness :
  sbctl_version_of Sbctl.Meta.url Sbctl.Meta.source = Some "0.12" /\
  forall v' n', has_char "/"%char v' = false ->
    Sbctl.Meta.source_of Sbctl.Meta.url "0.12" "sbctl" = Sbctl.Meta.source_of Sbctl.Meta.url v' n' ->
    "0.12" = v'.
Proof. apply (sbctl_source_roundtrip Sbctl.Meta.url "sbctl" "0.12"). reflexivity. Defined.
